(** * MatMultiYearView: the multi-year view of the datepicker

    A shallow embedding of [src/lib/datepicker/multi-year-view.ts].

    The component is generic in the date type [D] and receives all calendar
    arithmetic from an injected [DateAdapter<D>]; the embedding keeps that
    shape: [DateAdapter] is a type class, the component's methods live in a
    section parameterised by an instance, and a Gregorian instance is used to
    run the methods on concrete dates.

    JavaScript numbers that hold years, months, days and key codes are
    modelled as [Z].  [a % b] is the truncating remainder [Z.rem a b] (the
    result has the sign of the dividend) and [Math.floor(a / b)] for a positive
    [b] is the floor division [a / b] of [Z]. *)

From Stdlib Require Import String ZArith List Sorted Bool Lia.
From Stdlib Require Import DecimalString.
Import ListNotations.
Open Scope Z_scope.

Set Implicit Arguments.

(** ** Constants of the module *)

Definition yearsPerPage : Z := 24.

Definition yearsPerRow : Z := 4.

(** ** Collaborators *)

(** The operations of [DateAdapter<D>] the view calls.  [D] also contains the
    values an adapter can hold that are not valid dates; [deserialize] returns
    [D | null], here [option D]. *)
Class DateAdapter (D : Type) : Type := {
  getYear : D -> Z;
  getMonth : D -> Z;
  getDate : D -> Z;
  getYearName : D -> string;
  getNumDaysInMonth : D -> Z;
  createDate : Z -> Z -> Z -> D;
  today : D;
  addCalendarYears : D -> Z -> D;
  addCalendarDays : D -> Z -> D;
  compareDate : D -> D -> Z;
  clampDate : D -> option D -> option D -> D;
  deserialize : option D -> option D;
  isDateInstance : D -> bool;
  isValid : D -> bool
}.

(** The ten key code constants imported from [@angular/cdk/keycodes]; their
    numeric values are not part of the view, so they are a parameter. *)
Class KeyCodes : Type := {
  DOWN_ARROW : Z;
  END : Z;
  ENTER : Z;
  HOME : Z;
  LEFT_ARROW : Z;
  PAGE_DOWN : Z;
  PAGE_UP : Z;
  RIGHT_ARROW : Z;
  SPACE : Z;
  UP_ARROW : Z
}.

(** The part of a DOM [KeyboardEvent] the handler reads. *)
Record KeyboardEvent : Type := {
  keyCode : Z;
  altKey : bool
}.

(** [Directionality.value]. *)
Inductive Direction : Type := ltr | rtl.

Record DateRange (D : Type) : Type := {
  range_start : D;
  range_end : D
}.

(** Modelled from the spec: the Year Cell of section 3, that is the class
    [MatCalendarCell] of [calendar-body.ts], which is not among the sources:
    its value, display text, aria label, enabled flag and date range, in the
    order in which [_createCellForYear] passes them to the constructor. *)
Record MatCalendarCell (D : Type) : Type := {
  value : Z;
  displayValue : string;
  ariaLabel : string;
  enabled : bool;
  range : DateRange D
}.

(** What a method does to the outside world, in the order in which it does it:
    values sent through the three [EventEmitter]s,
    [_changeDetectorRef.markForCheck()], [_matCalendarBody._focusActiveCell()]
    and [event.preventDefault()]. *)
Inductive Effect (D : Type) : Type :=
| SelectedChange (d : D)
| YearSelected (d : D)
| ActiveDateChange (d : D)
| MarkForCheck
| FocusActiveCell
| PreventDefault.

Arguments MarkForCheck {D}.
Arguments FocusActiveCell {D}.
Arguments PreventDefault {D}.

(** The fields of a [MatMultiYearView<D>] instance.  [_selected] stands for
    the shared selection model, of which the view reads
    [getFirstSelectedDate()]; [_dir] is the optional [Directionality]. *)
Record MatMultiYearView (D : Type) : Type := {
  _activeDate : D;
  _minDate : option D;
  _maxDate : option D;
  dateFilter : option (D -> bool);
  _years : list (list (MatCalendarCell D));
  _todayYear : option Z;
  _selectedYear : option Z;
  _selected : option D;
  _dir : option Direction
}.

(** ** The component *)

Section View.

Context {D : Type} {adapter : DateAdapter D} {keys : KeyCodes}.

Local Abbreviation view := (MatMultiYearView D).
Local Abbreviation cell := (MatCalendarCell D).
Local Abbreviation effect := (Effect D).

(** *** Field assignments *)

Definition with_activeDate (st : view) (d : D) : view :=
  {| _activeDate := d; _minDate := _minDate st; _maxDate := _maxDate st;
     dateFilter := dateFilter st; _years := _years st;
     _todayYear := _todayYear st; _selectedYear := _selectedYear st;
     _selected := _selected st; _dir := _dir st |}.

Definition with_minDate (st : view) (d : option D) : view :=
  {| _activeDate := _activeDate st; _minDate := d; _maxDate := _maxDate st;
     dateFilter := dateFilter st; _years := _years st;
     _todayYear := _todayYear st; _selectedYear := _selectedYear st;
     _selected := _selected st; _dir := _dir st |}.

Definition with_maxDate (st : view) (d : option D) : view :=
  {| _activeDate := _activeDate st; _minDate := _minDate st; _maxDate := d;
     dateFilter := dateFilter st; _years := _years st;
     _todayYear := _todayYear st; _selectedYear := _selectedYear st;
     _selected := _selected st; _dir := _dir st |}.

Definition with_years (st : view) (ys : list (list cell)) : view :=
  {| _activeDate := _activeDate st; _minDate := _minDate st;
     _maxDate := _maxDate st; dateFilter := dateFilter st; _years := ys;
     _todayYear := _todayYear st; _selectedYear := _selectedYear st;
     _selected := _selected st; _dir := _dir st |}.

Definition with_todayYear (st : view) (y : option Z) : view :=
  {| _activeDate := _activeDate st; _minDate := _minDate st;
     _maxDate := _maxDate st; dateFilter := dateFilter st;
     _years := _years st; _todayYear := y;
     _selectedYear := _selectedYear st; _selected := _selected st;
     _dir := _dir st |}.

Definition with_selectedYear (st : view) (y : option Z) : view :=
  {| _activeDate := _activeDate st; _minDate := _minDate st;
     _maxDate := _maxDate st; dateFilter := dateFilter st;
     _years := _years st; _todayYear := _todayYear st; _selectedYear := y;
     _selected := _selected st; _dir := _dir st |}.

(** *** Methods as state transformers

    A method takes the instance, and returns its result, the instance after
    the call and the effects it had.  [None] is reserved for the one loop of
    the file whose termination depends on the adapter, the day scan of
    [_shouldEnableYear], when it is cut off by its step bound. *)

Definition M (A : Type) : Type := view -> option (A * view * list effect).

Definition ret {A : Type} (a : A) : M A := fun st => Some (a, st, []).

Definition bind {A B : Type} (m : M A) (f : A -> M B) : M B :=
  fun st =>
    match m st with
    | None => None
    | Some (a, st1, e1) =>
        match f a st1 with
        | None => None
        | Some (b, st2, e2) => Some (b, st2, e1 ++ e2)
        end
    end.

Definition this : M view := fun st => Some (st, st, []).

Definition assign (f : view -> view) : M unit := fun st => Some (tt, f st, []).

Definition perform (e : effect) : M unit := fun st => Some (tt, st, [e]).

Definition lift {A : Type} (o : option A) : M A :=
  fun st => match o with Some a => Some (a, st, []) | None => None end.

Notation "x <- c1 ;; c2" := (bind c1 (fun x => c2))
  (at level 61, c1 at next level, right associativity).
Notation "c1 ;; c2" := (bind c1 (fun _ => c2))
  (at level 61, right associativity).

(** *** Getters *)

Definition activeDate (st : view) : D := _activeDate st.

Definition minDate (st : view) : option D := _minDate st.

Definition maxDate (st : view) : option D := _maxDate st.

(** *** Private helpers *)

(** [_getValidDateOrNull(obj)]: [obj] when the adapter says it is a date
    instance and valid, [null] otherwise. *)
Definition _getValidDateOrNull (obj : option D) : option D :=
  match obj with
  | Some d => if isDateInstance d && isValid d then Some d else None
  | None => None
  end.

(** [_isRtl()]: [this._dir && this._dir.value === 'rtl']. *)
Definition _isRtl (st : view) : bool :=
  match _dir st with
  | Some rtl => true
  | _ => false
  end.

(** [extractYear()]: [date && getYear(date)] of the first selected date. *)
Definition extractYear : M unit :=
  assign (fun st => with_selectedYear st (option_map getYear (_selected st))).

(** The loop of [_shouldEnableYear]:
    [for (date = ...; getYear(date) == year; date = addCalendarDays(date, 1))
       if (dateFilter(date)) return true;]
    followed by [return false].  [steps] bounds the number of times the loop
    condition is tested. *)
Fixpoint scanYear (steps : nat) (filter : D -> bool) (year : Z) (date : D)
  : option bool :=
  match steps with
  | O => None
  | S steps' =>
      if getYear date =? year then
        if filter date then Some true
        else scanYear steps' filter year (addCalendarDays date 1)
      else Some false
  end.

(** [_shouldEnableYear(year)].  The argument is a [number] in the signature,
    but the body tests it against [undefined] and [null]; [None] stands for
    these two. *)
Definition _shouldEnableYear (steps : nat) (st : view) (year : option Z)
  : option bool :=
  match year with
  | None => Some false
  | Some y =>
      if match maxDate st with
         | Some m => y >? getYear m
         | None => false
         end
         || match minDate st with
            | Some m => y <? getYear m
            | None => false
            end
      then Some false
      else
        match dateFilter st with
        | None => Some true
        | Some filter => scanYear steps filter y (createDate y 0 1)
        end
  end.

(** [_createCellForYear(year)]. *)
Definition _createCellForYear (steps : nat) (st : view) (year : Z)
  : option cell :=
  let date := createDate year 0 1 in
  let end_ := createDate year 11 31 in
  let range := {| range_start := date; range_end := end_ |} in
  let yearName := getYearName date in
  match _shouldEnableYear steps st (Some year) with
  | Some en =>
      Some {| value := year; displayValue := yearName; ariaLabel := yearName;
              enabled := en; range := range |}
  | None => None
  end.

(** [row.map(year => this._createCellForYear(year))]. *)
Fixpoint mapCells (steps : nat) (st : view) (row : list Z)
  : option (list cell) :=
  match row with
  | [] => Some []
  | year :: row' =>
      match _createCellForYear steps st year with
      | None => None
      | Some c =>
          match mapCells steps st row' with
          | None => None
          | Some cs => Some (c :: cs)
          end
      end
  end.

(** *** [_init] *)

(** The body of the [for] loop of [_init], [todo] iterations of it starting at
    index [i] with the years collected in [row]. *)
Fixpoint initLoop (steps : nat) (activeYear activeOffset : Z)
    (todo : nat) (i : Z) (row : list Z) : M unit :=
  match todo with
  | O => ret tt
  | S todo' =>
      let row1 := row ++ [activeYear - activeOffset + i] in
      if Z.of_nat (length row1) =? yearsPerRow then
        st <- this ;;
        cells <- lift (mapCells steps st row1) ;;
        assign (fun st => with_years st (_years st ++ [cells])) ;;
        initLoop steps activeYear activeOffset todo' (i + 1) []
      else
        initLoop steps activeYear activeOffset todo' (i + 1) row1
  end.

Definition _init (steps : nat) : M unit :=
  extractYear ;;
  assign (fun st => with_todayYear st (Some (getYear today))) ;;
  st <- this ;;
  let activeYear := getYear (_activeDate st) in
  let activeOffset := Z.rem activeYear yearsPerPage in
  assign (fun st => with_years st []) ;;
  initLoop steps activeYear activeOffset (Z.to_nat yearsPerPage) 0 [] ;;
  perform MarkForCheck.

(** [ngAfterContentInit()]. *)
Definition ngAfterContentInit (steps : nat) : M unit := _init steps.

(** *** Property setters *)

(** [set activeDate(value)]. *)
Definition set_activeDate (steps : nat) (value : D) : M unit :=
  st <- this ;;
  let oldActiveDate := _activeDate st in
  let validDate :=
    match _getValidDateOrNull (deserialize (Some value)) with
    | Some d => d
    | None => today
    end in
  assign (fun st =>
            with_activeDate st (clampDate validDate (minDate st) (maxDate st))) ;;
  st <- this ;;
  if negb (getYear oldActiveDate / yearsPerPage
           =? getYear (_activeDate st) / yearsPerPage)
  then _init steps
  else ret tt.

(** [set minDate(value)]. *)
Definition set_minDate (value : option D) : M unit :=
  assign (fun st => with_minDate st (_getValidDateOrNull (deserialize value))).

(** [set maxDate(value)]. *)
Definition set_maxDate (value : option D) : M unit :=
  assign (fun st => with_maxDate st (_getValidDateOrNull (deserialize value))).

(** *** Selection and keyboard *)

(** [_yearSelected(year)]. *)
Definition _yearSelected (year : Z) : M unit :=
  perform (YearSelected (createDate year 0 1)) ;;
  st <- this ;;
  let month := getMonth (activeDate st) in
  let daysInMonth := getNumDaysInMonth (createDate year month 1) in
  perform (SelectedChange
             (createDate year month
                (Z.min (getDate (activeDate st)) daysInMonth))).

(** [_getActiveCell()]. *)
Definition _getActiveCell (st : view) : Z :=
  Z.rem (getYear (activeDate st)) yearsPerPage.

(** [_focusActiveCell()]. *)
Definition _focusActiveCell : M unit := perform FocusActiveCell.

(** The [switch] of [_handleCalendarBodyKeydown]: the first [case] whose
    constant equals [event.keyCode] runs; the result says whether a [case]
    other than [default] was taken. *)
Definition keydownSwitch (steps : nat) (event : KeyboardEvent) (isRtl : bool)
  : M bool :=
  st <- this ;;
  let code := keyCode event in
  if code =? LEFT_ARROW then
    set_activeDate steps
      (addCalendarYears (_activeDate st) (if isRtl then 1 else -1)) ;;
    ret true
  else if code =? RIGHT_ARROW then
    set_activeDate steps
      (addCalendarYears (_activeDate st) (if isRtl then -1 else 1)) ;;
    ret true
  else if code =? UP_ARROW then
    set_activeDate steps (addCalendarYears (_activeDate st) (- yearsPerRow)) ;;
    ret true
  else if code =? DOWN_ARROW then
    set_activeDate steps (addCalendarYears (_activeDate st) yearsPerRow) ;;
    ret true
  else if code =? HOME then
    set_activeDate steps
      (addCalendarYears (_activeDate st)
         (Z.rem (- getYear (_activeDate st)) yearsPerPage)) ;;
    ret true
  else if code =? END then
    set_activeDate steps
      (addCalendarYears (_activeDate st)
         (yearsPerPage - Z.rem (getYear (_activeDate st)) yearsPerPage - 1)) ;;
    ret true
  else if code =? PAGE_UP then
    set_activeDate steps
      (addCalendarYears (_activeDate st)
         (if altKey event then - yearsPerPage * 10 else - yearsPerPage)) ;;
    ret true
  else if code =? PAGE_DOWN then
    set_activeDate steps
      (addCalendarYears (_activeDate st)
         (if altKey event then yearsPerPage * 10 else yearsPerPage)) ;;
    ret true
  else if (code =? ENTER) || (code =? SPACE) then
    _yearSelected (getYear (_activeDate st)) ;;
    ret true
  else
    ret false.

(** [_handleCalendarBodyKeydown(event)]. *)
Definition _handleCalendarBodyKeydown (steps : nat) (event : KeyboardEvent)
  : M unit :=
  st <- this ;;
  let oldActiveDate := _activeDate st in
  let isRtl := _isRtl st in
  handled <- keydownSwitch steps event isRtl ;;
  if handled : bool then
    st <- this ;;
    (if negb (compareDate oldActiveDate (activeDate st) =? 0)
     then perform (ActiveDateChange (activeDate st))
     else ret tt) ;;
    _focusActiveCell ;;
    perform PreventDefault
  else
    ret tt.

(** *** Vocabulary of the properties *)

(** The page a year lies on: [Math.floor(year / yearsPerPage)], the quantity
    the [activeDate] setter compares. *)
Definition pageOf (year : Z) : Z := year / yearsPerPage.

(** The years [_init] pushes, in the order of the loop index. *)
Definition pageYears (activeYear : Z) : list Z :=
  map (fun i => activeYear - Z.rem activeYear yearsPerPage + Z.of_nat i)
      (seq 0 (Z.to_nat yearsPerPage)).

(** The years of all cells of a grid, row after row. *)
Definition gridYears (rows : list (list cell)) : list Z :=
  map (@value D) (concat rows).

(** The date reached from [d] by [k] calls of [addCalendarDays(_, 1)]. *)
Fixpoint dayFrom (d : D) (k : nat) : D :=
  match k with
  | O => d
  | S k' => dayFrom (addCalendarDays d 1) k'
  end.

(** The [k]-th date the scan of [_shouldEnableYear(year)] visits. *)
Definition yearDay (year : Z) (k : nat) : D := dayFrom (createDate year 0 1) k.

(** The scan of [year] leaves the year after at most [n] days. *)
Definition leavesYearWithin (n : nat) (year : Z) : Prop :=
  exists k, (k <= n)%nat /\ getYear (yearDay year k) <> year.

(** [yearDay year k] is a day of [year]: the scan reaches it before the year
    rolls over. *)
Definition isDayOfYear (year : Z) (k : nat) : Prop :=
  forall j, (j <= k)%nat -> getYear (yearDay year j) = year.

(** Some day of [year] passes the filter. *)
Definition someDayPasses (filter : D -> bool) (year : Z) : Prop :=
  exists k, isDayOfYear year k /\ filter (yearDay year k) = true.

(** The three conditions under which a year is enabled. *)
Definition notAfterMax (st : view) (year : Z) : Prop :=
  forall m, maxDate st = Some m -> year <= getYear m.

Definition notBeforeMin (st : view) (year : Z) : Prop :=
  forall m, minDate st = Some m -> getYear m <= year.

Definition passesFilter (st : view) (year : Z) : Prop :=
  forall filter, dateFilter st = Some filter -> someDayPasses filter year.

(** [d] is not before [lo] and not after [hi], by [compareDate], for the
    bounds that are set. *)
Definition withinBounds (d : D) (lo hi : option D) : Prop :=
  (forall m, lo = Some m -> compareDate d m >= 0) /\
  (forall m, hi = Some m -> compareDate d m <= 0).

(** The adapter accepts [d] as a date: what [_getValidDateOrNull] tests. *)
Definition validDate (d : D) : Prop :=
  isDateInstance d = true /\ isValid d = true.

(** The stored bounds are valid dates or [null], as the two setters leave
    them. *)
Definition boundsValid (st : view) : Prop :=
  (forall m, minDate st = Some m -> validDate m) /\
  (forall m, maxDate st = Some m -> validDate m).

(** The years of the six rows [_init] pushes. *)
Definition pageRows (activeYear : Z) : list (list Z) :=
  let first := activeYear - Z.rem activeYear yearsPerPage in
  map (fun r => map (fun c => first + Z.of_nat (r * 4 + c)) (seq 0 4))
      (seq 0 6).

(** The cell [_createCellForYear] returns when the scan is not cut off. *)
Definition enabledAt (steps : nat) (st : view) (year : Z) : bool :=
  match _shouldEnableYear steps st (Some year) with
  | Some b => b
  | None => false
  end.

Definition cellAt (steps : nat) (st : view) (year : Z) : cell :=
  {| value := year;
     displayValue := getYearName (createDate year 0 1);
     ariaLabel := getYearName (createDate year 0 1);
     enabled := enabledAt steps st year;
     range := {| range_start := createDate year 0 1;
                 range_end := createDate year 11 31 |} |}.

(** The instance after a run of [_init]. *)
Definition initialized (steps : nat) (st : view) : view :=
  with_years
    (with_todayYear
       (with_selectedYear st (option_map getYear (_selected st)))
       (Some (getYear today)))
    (map (map (cellAt steps st)) (pageRows (getYear (_activeDate st)))).

(** If a filter is set, the scan of [year] leaves the year in fewer than
    [steps] days, so that [steps] tests of the loop condition are enough for
    [_shouldEnableYear(year)] to return. *)
Definition scanBounded (steps : nat) (st : view) (year : Z) : Prop :=
  dateFilter st <> None ->
  exists n, (n < steps)%nat /\ leavesYearWithin n year.

(** First and last year of the page a year lies on. *)
Definition firstYearOfPage (year : Z) : Z := yearsPerPage * pageOf year.

Definition lastYearOfPage (year : Z) : Z :=
  firstYearOfPage year + yearsPerPage - 1.

(** The lower bound is not after the upper one, when both are set. *)
Definition boundsOrdered (lo hi : option D) : Prop :=
  forall a b, lo = Some a -> hi = Some b -> compareDate a b <= 0.

(** What the view expects of the adapter when it assigns the active date:
    [today()] is a valid date, and [clampDate] returns its argument or one of
    the bounds, a date within the bounds when these are ordered. *)
Record ClampingAdapter : Prop := {
  today_valid : validDate today;
  clamp_choice : forall d lo hi,
    clampDate d lo hi = d \/ lo = Some (clampDate d lo hi)
    \/ hi = Some (clampDate d lo hi);
  clamp_within : forall d lo hi,
    boundsOrdered lo hi -> withinBounds (clampDate d lo hi) lo hi
}.

(** The date the [activeDate] setter keeps of the assigned value. *)
Definition validOrToday (v : D) : D :=
  match _getValidDateOrNull (deserialize (Some v)) with
  | Some d => d
  | None => today
  end.

(** The instance right after the assignment [this._activeDate = ...] of the
    [activeDate] setter. *)
Definition assigned (st : view) (v : D) : view :=
  with_activeDate st (clampDate (validOrToday v) (minDate st) (maxDate st)).

(** The test of the [activeDate] setter, negated: both dates lie on one
    page. *)
Definition samePage (a b : D) : bool :=
  pageOf (getYear a) =? pageOf (getYear b).

(** The key code is one of those the [switch] has a [case] for. *)
Definition recognized (code : Z) : bool :=
  (code =? LEFT_ARROW) || (code =? RIGHT_ARROW) || (code =? UP_ARROW)
  || (code =? DOWN_ARROW) || (code =? HOME) || (code =? END)
  || (code =? PAGE_UP) || (code =? PAGE_DOWN) || (code =? ENTER)
  || (code =? SPACE).

(** The event [activeDateChange] follows the year: handling [event] emits it
    exactly when the year of the active date has changed. *)
Definition emitsOnYearChangeOnly (steps : nat) (event : KeyboardEvent)
    (st : view) : Prop :=
  forall st' effs,
    _handleCalendarBodyKeydown steps event st = Some (tt, st', effs) ->
    ((exists d, In (ActiveDateChange d) effs) <->
     getYear (_activeDate st') <> getYear (_activeDate st)).

(** The assignment of [v] stores a valid date that lies within the bounds. *)
Definition storesWithinBounds (steps : nat) (v : D) (st : view) : Prop :=
  forall st' effs,
    set_activeDate steps v st = Some (tt, st', effs) ->
    validDate (_activeDate st') /\
    withinBounds (_activeDate st') (minDate st') (maxDate st').

(** *** The constructor and further vocabulary *)

(** The instance the constructor leaves when a [DateAdapter] is injected (it
    throws otherwise): [_activeDate] is [today()], the inputs are not yet
    assigned.  [selection] is the first selected date of the injected
    selection model and [dir] the optional [Directionality]. *)
Definition constructed (selection : option D) (dir : option Direction)
  : view :=
  {| _activeDate := today; _minDate := None; _maxDate := None;
     dateFilter := None; _years := []; _todayYear := None;
     _selectedYear := None; _selected := selection; _dir := dir |}.

(** The instance with another [Directionality] injected. *)
Definition with_dir (st : view) (d : option Direction) : view :=
  {| _activeDate := _activeDate st; _minDate := _minDate st;
     _maxDate := _maxDate st; dateFilter := dateFilter st;
     _years := _years st; _todayYear := _todayYear st;
     _selectedYear := _selectedYear st; _selected := _selected st;
     _dir := d |}.

(** The inputs and collaborators of [st'] are those of [st]. *)
Definition keepsInputs (st st' : view) : Prop :=
  _minDate st' = _minDate st /\ _maxDate st' = _maxDate st /\
  dateFilter st' = dateFilter st /\ _selected st' = _selected st /\
  _dir st' = _dir st.

(** The grid of [st] is the one [_init] would generate now. *)
Definition gridCurrent (steps : nat) (st : view) : Prop :=
  exists st' effs,
    _init steps st = Some (tt, st', effs) /\ _years st' = _years st.

(** The [activeDate] setter stores [v] as it is: the adapter accepts it and
    the bounds do not clamp it. *)
Definition storedAsIs (st : view) (v : D) : Prop :=
  clampDate (validOrToday v) (minDate st) (maxDate st) = v.

End View.

(** ** A Gregorian adapter

    A date adapter over explicit (year, month, day) triples of the proleptic
    Gregorian calendar, months counted from 0 as in the adapter interface.  It
    behaves as the stock adapter of the library does on valid dates; triples
    that name no day of the calendar are its invalid dates.  [compareDate] and
    [clampDate] follow the base class [DateAdapter]: the first non-zero
    difference of year, month and day, and the nearer bound, the lower one
    first. *)
Module Gregorian.

Record date : Type := mk { yr : Z; mo : Z; dy : Z }.

Definition isLeap (y : Z) : bool :=
  (y mod 4 =? 0) && (negb (y mod 100 =? 0) || (y mod 400 =? 0)).

Definition daysIn (leap : bool) (m : Z) : Z :=
  if m =? 1 then (if leap then 29 else 28)
  else if (m =? 3) || (m =? 5) || (m =? 8) || (m =? 10) then 30
  else 31.

Definition nextDayIn (leap : bool) (d : date) : date :=
  if dy d <? daysIn leap (mo d) then mk (yr d) (mo d) (dy d + 1)
  else if mo d <? 11 then mk (yr d) (mo d + 1) 1
  else mk (yr d + 1) 0 1.

Definition nextDay (d : date) : date := nextDayIn (isLeap (yr d)) d.

Definition prevDay (d : date) : date :=
  if 1 <? dy d then mk (yr d) (mo d) (dy d - 1)
  else if 0 <? mo d
       then mk (yr d) (mo d - 1) (daysIn (isLeap (yr d)) (mo d - 1))
       else mk (yr d - 1) 11 31.

Definition addDays (d : date) (n : Z) : date :=
  if 0 <=? n then Nat.iter (Z.to_nat n) nextDay d
  else Nat.iter (Z.to_nat (- n)) prevDay d.

Definition addYears (d : date) (n : Z) : date :=
  let y := yr d + n in
  mk y (mo d) (Z.min (dy d) (daysIn (isLeap y) (mo d))).

Definition compare (a b : date) : Z :=
  if negb (yr a - yr b =? 0) then yr a - yr b
  else if negb (mo a - mo b =? 0) then mo a - mo b
  else dy a - dy b.

Definition clamp (d : date) (lo hi : option date) : date :=
  match lo with
  | Some m =>
      if compare d m <? 0 then m
      else match hi with
           | Some h => if compare d h >? 0 then h else d
           | None => d
           end
  | None =>
      match hi with
      | Some h => if compare d h >? 0 then h else d
      | None => d
      end
  end.

Definition valid (d : date) : bool :=
  (0 <=? mo d) && (mo d <? 12) && (1 <=? dy d)
  && (dy d <=? daysIn (isLeap (yr d)) (mo d)).

Definition yearName (d : date) : string :=
  NilZero.string_of_int (Z.to_int (yr d)).

#[global] Instance adapter : DateAdapter date := {
  getYear := yr;
  getMonth := mo;
  getDate := dy;
  getYearName := yearName;
  getNumDaysInMonth := fun d => daysIn (isLeap (yr d)) (mo d);
  createDate := mk;
  today := mk 2020 0 15;
  addCalendarYears := addYears;
  addCalendarDays := addDays;
  compareDate := compare;
  clampDate := clamp;
  deserialize := fun v => v;
  isDateInstance := fun _ => true;
  isValid := valid
}.

(** The values of the key code constants in the DOM. *)
#[global] Instance domKeys : KeyCodes := {
  DOWN_ARROW := 40;
  END := 35;
  ENTER := 13;
  HOME := 36;
  LEFT_ARROW := 37;
  PAGE_DOWN := 34;
  PAGE_UP := 33;
  RIGHT_ARROW := 39;
  SPACE := 32;
  UP_ARROW := 38
}.

(** A view as the constructor and [ngAfterContentInit] leave it but for the
    given active date, bounds and filter; the grid is empty until [_init]. *)
Definition viewAt (active : date) (lo hi : option date)
    (filter : option (date -> bool)) : MatMultiYearView date :=
  {| _activeDate := active; _minDate := lo; _maxDate := hi;
     dateFilter := filter; _years := []; _todayYear := None;
     _selectedYear := None; _selected := None; _dir := None |}.

Definition key (code : Z) : KeyboardEvent :=
  {| keyCode := code; altKey := false |}.

(** A filter that lets the 29th of February through and no other day. *)
Definition onLeapDay (d : date) : bool := (mo d =? 1) && (dy d =? 29).

(** Active date 3 February 2023, bounds 2020 and 2025, leap days only. *)
Definition sampleView : MatMultiYearView date :=
  viewAt (mk 2023 1 3) (Some (mk 2020 0 1)) (Some (mk 2025 11 31))
         (Some onLeapDay).

(** The same active date and filter without bounds. *)
Definition openView : MatMultiYearView date :=
  viewAt (mk 2023 1 3) None None (Some onLeapDay).

(** Active date 15 June 2020 with 31 December 2020 as the upper bound. *)
Definition boundedView : MatMultiYearView date :=
  viewAt (mk 2020 5 15) None (Some (mk 2020 11 31)) None.

(** The lower bound, 2020, is after the upper bound, 2010. *)
Definition invertedView : MatMultiYearView date :=
  viewAt (mk 2020 0 15) (Some (mk 2020 0 1)) (Some (mk 2010 0 1)) None.

(** Active date 15 June of the year -1, no bounds and no filter. *)
Definition negativeView : MatMultiYearView date :=
  viewAt (mk (-1) 5 15) None None None.

(** [openView] with its grid generated. *)
Definition generatedView : MatMultiYearView date := initialized 367 openView.

(** [k] days on from [d] in a year that is, or is not, a leap year. *)
Fixpoint walk (leap : bool) (d : date) (k : nat) : date :=
  match k with
  | O => d
  | S k' => walk leap (nextDayIn leap d) k'
  end.

(** The date [d] moved by [y] years, as it is written. *)
Definition shift (y : Z) (d : date) : date := mk (y + yr d) (mo d) (dy d).

End Gregorian.

(** ** Properties of the component *)

Unset Implicit Arguments.

Section Properties.

Context {D : Type} {adapter : DateAdapter D} {keys : KeyCodes}.

Local Abbreviation view := (MatMultiYearView D).

(** *** Running a method step by step *)

Lemma bind_ret {A B : Type} (a : A) (k : A -> M B) (st : view) :
  bind (ret a) k st = k a st.
Proof.
  unfold bind, ret. destruct (k a st) as [[[b st2] e2]|]; reflexivity.
Qed.

Lemma bind_this {B : Type} (k : view -> M B) (st : view) :
  bind this k st = k st st.
Proof.
  unfold bind, this. destruct (k st st) as [[[b st2] e2]|]; reflexivity.
Qed.

Lemma bind_assign {B : Type} (f : view -> view) (k : unit -> M B) (st : view) :
  bind (assign f) k st = k tt (f st).
Proof.
  unfold bind, assign. destruct (k tt (f st)) as [[[b st2] e2]|]; reflexivity.
Qed.

Lemma bind_lift_some {A B : Type} (a : A) (k : A -> M B) (st : view) :
  bind (lift (Some a)) k st = k a st.
Proof.
  unfold bind, lift. destruct (k a st) as [[[b st2] e2]|]; reflexivity.
Qed.

Lemma bind_perform {B : Type} (e : Effect D) (k : unit -> M B) (st : view) :
  bind (perform e) k st =
  match k tt st with
  | Some (b, st2, e2) => Some (b, st2, e :: e2)
  | None => None
  end.
Proof. reflexivity. Qed.

Lemma bind_result {A B : Type} (m : M A) (k : A -> M B) (st st1 : view)
    (a : A) (e1 : list (Effect D)) :
  m st = Some (a, st1, e1) ->
  bind m k st =
  match k a st1 with
  | Some (b, st2, e2) => Some (b, st2, e1 ++ e2)
  | None => None
  end.
Proof. intros Hm. unfold bind. rewrite Hm. reflexivity. Qed.

(** *** The day scan *)

Lemma scanYear_spec (filter : D -> bool) (year : Z) :
  forall (steps : nat) (d : D) (n : nat),
    getYear (dayFrom d n) <> year ->
    (n < steps)%nat ->
    exists b,
      scanYear steps filter year d = Some b /\
      (b = true <->
       exists k, (forall j, (j <= k)%nat -> getYear (dayFrom d j) = year) /\
                 filter (dayFrom d k) = true).
Proof.
  induction steps as [|steps IH]; intros d n Hleave Hn; [lia|].
  cbn [scanYear].
  destruct (getYear d =? year) eqn:Hy.
  - apply Z.eqb_eq in Hy.
    destruct (filter d) eqn:Hf.
    + exists true. split; [reflexivity|]. split; [|reflexivity].
      intros _. exists O. split; [|exact Hf].
      intros j Hj. replace j with O by lia. exact Hy.
    + destruct n as [|n]; [cbn in Hleave; contradiction|].
      destruct (IH (addCalendarDays d 1) n Hleave ltac:(lia)) as (b & Hb & Hiff).
      exists b. split; [exact Hb|].
      rewrite Hiff. split.
      * intros (k & Hin & Hk). exists (S k). split; [|exact Hk].
        intros [|j] Hj; [exact Hy|]. apply Hin. lia.
      * intros (k & Hin & Hk). destruct k as [|k].
        { cbn in Hk. congruence. }
        exists k. split; [|exact Hk].
        intros j Hj. apply (Hin (S j)). lia.
  - apply Z.eqb_neq in Hy.
    exists false. split; [reflexivity|]. split; [discriminate|].
    intros (k & Hin & _). exfalso. apply Hy. apply (Hin O). lia.
Qed.

(** The guard of [_shouldEnableYear] is the negation of the two bound
    conditions. *)
Lemma boundsGuard_spec (st : view) (year : Z) :
  match maxDate st with
  | Some m => year >? getYear m
  | None => false
  end
  || match minDate st with
     | Some m => year <? getYear m
     | None => false
     end = false <->
  notAfterMax st year /\ notBeforeMin st year.
Proof.
  unfold notAfterMax, notBeforeMin. rewrite orb_false_iff.
  destruct (maxDate st) as [hi|], (minDate st) as [lo|];
    rewrite ?Z.gtb_ltb, ?Z.ltb_ge; split.
  all: try (intros [Hhi Hlo]; split; intros m Hm;
            try discriminate; injection Hm as <-; lia).
  all: intros [Hhi Hlo]; split; try reflexivity;
    try specialize (Hhi _ eq_refl); try specialize (Hlo _ eq_refl); lia.
Qed.

Lemma shouldEnableYear_spec (st : view) (year : Z) (steps : nat) :
  scanBounded steps st year ->
  exists b,
    _shouldEnableYear steps st (Some year) = Some b /\
    (b = true <->
     notAfterMax st year /\ notBeforeMin st year /\ passesFilter st year).
Proof.
  intros Hscan.
  pose proof (boundsGuard_spec st year) as Hguard.
  unfold scanBounded in Hscan. unfold _shouldEnableYear, passesFilter.
  destruct (_ || _) eqn:Hg.
  - exists false. split; [reflexivity|]. split; [discriminate|].
    intros (Hhi & Hlo & _).
    assert (true = false) by (apply Hguard; split; assumption).
    discriminate.
  - destruct Hguard as [Hguard _]. specialize (Hguard eq_refl).
    destruct (dateFilter st) as [filter|].
    + destruct Hscan as (n & Hn & k & Hk & Hleave); [discriminate|].
      destruct (scanYear_spec filter year steps (createDate year 0 1) k
                  Hleave ltac:(lia)) as (b & Hb & Hiff).
      exists b. split; [exact Hb|]. rewrite Hiff. split.
      * intros Hex. repeat split; try apply Hguard.
        intros f Hf. injection Hf as <-. exact Hex.
      * intros (_ & _ & Hex). exact (Hex filter eq_refl).
    + exists true. split; [reflexivity|]. split; [|reflexivity].
      intros _. repeat split; try apply Hguard. discriminate.
Qed.

Lemma shouldEnableYear_defined (st : view) (year : Z) (steps : nat) :
  scanBounded steps st year ->
  _shouldEnableYear steps st (Some year) = Some (enabledAt steps st year).
Proof.
  intros Hscan.
  destruct (shouldEnableYear_spec st year steps Hscan) as (b & Hb & _).
  unfold enabledAt. rewrite Hb. reflexivity.
Qed.

(** *** Page generation *)

Lemma createCellForYear_defined (st : view) (year : Z) (steps : nat) :
  scanBounded steps st year ->
  _createCellForYear steps st year = Some (cellAt steps st year).
Proof.
  intros Hscan. unfold _createCellForYear.
  rewrite (shouldEnableYear_defined st year steps Hscan). reflexivity.
Qed.

Lemma mapCells_defined (st : view) (steps : nat) (row : list Z) :
  (forall y, In y row -> scanBounded steps st y) ->
  mapCells steps st row = Some (map (cellAt steps st) row).
Proof.
  intros Hrow. induction row as [|y row IH]; [reflexivity|].
  cbn [mapCells map].
  rewrite (createCellForYear_defined st y steps (Hrow y (or_introl eq_refl))).
  rewrite IH; [reflexivity|].
  intros y' Hy'. apply Hrow. right. exact Hy'.
Qed.

(** Four turns of the loop of [_init] that start with an empty [row] push one
    row of four cells. *)
Lemma initLoop_row (steps : nat) (activeYear activeOffset : Z)
    (todo : nat) (i : Z) (st : view) :
  let first := activeYear - activeOffset in
  let row := [first + i; first + (i + 1); first + (i + 1 + 1);
              first + (i + 1 + 1 + 1)] in
  (forall y, In y row -> scanBounded steps st y) ->
  initLoop steps activeYear activeOffset (4 + todo) i [] st =
  initLoop steps activeYear activeOffset todo (i + 1 + 1 + 1 + 1) []
    (with_years st (_years st ++ [map (cellAt steps st) row])).
Proof.
  intros first row Hrow.
  cbn [initLoop Nat.add app length Z.of_nat Pos.of_succ_nat Pos.succ
       yearsPerRow Z.eqb Pos.eqb].
  rewrite bind_this. subst row first.
  rewrite (@mapCells_defined st steps _ Hrow).
  rewrite bind_lift_some, bind_assign.
  reflexivity.
Qed.

Lemma pageYears_rows (activeYear : Z) :
  concat (pageRows activeYear) = pageYears activeYear.
Proof. reflexivity. Qed.

Lemma init_runs (st : view) (steps : nat) :
  (forall y, In y (pageYears (getYear (_activeDate st))) ->
             scanBounded steps st y) ->
  _init steps st = Some (tt, initialized steps st, [MarkForCheck]).
Proof.
  intros Hpage. unfold _init, extractYear.
  rewrite !bind_assign, bind_this, bind_assign.
  unfold initialized, pageRows. unfold pageYears in Hpage.
  change (Z.to_nat yearsPerPage) with 24%nat in Hpage.
  set (activeYear := getYear (_activeDate st)) in *.
  cbn [_activeDate with_todayYear with_selectedYear].
  fold activeYear.
  set (activeOffset := Z.rem activeYear yearsPerPage) in *.
  match goal with
  | |- bind ?m _ ?s = Some (_, ?s', _) =>
      assert (Hloop : m s = Some (tt, s', []))
  end.
  { change (Z.to_nat yearsPerPage)
      with (4 + (4 + (4 + (4 + (4 + (4 + 0))))))%nat.
    do 6 (rewrite (@initLoop_row steps);
          [ | intros y Hy; apply Hpage; cbn in Hy |- *; tauto ]).
    reflexivity. }
  erewrite bind_result by exact Hloop. reflexivity.
Qed.

(** *** The generated page *)

(** C1. For every active date, [_init] produces exactly 24 year cells in
    strictly ascending year order, held in generation order in 6 rows of 4;
    the [i]-th year is [activeYear - activeYear % 24 + i], where [%] is the
    truncating remainder of the source. *)
Theorem init_generates_page (st : view) (steps : nat) :
  (forall y, In y (pageYears (getYear (_activeDate st))) ->
             scanBounded steps st y) ->
  exists st',
    _init steps st = Some (tt, st', [MarkForCheck]) /\
    let activeYear := getYear (_activeDate st) in
    let years := gridYears (_years st') in
    length years = 24%nat /\
    years = map (fun i => activeYear - Z.rem activeYear 24 + Z.of_nat i)
                (seq 0 24) /\
    StronglySorted Z.lt years /\
    length (_years st') = 6%nat /\
    Forall (fun row => length row = 4%nat) (_years st').
Proof.
  intros Hpage. exists (initialized steps st).
  split; [apply init_runs; exact Hpage|].
  cbn zeta. unfold initialized, gridYears. cbn [_years with_years].
  set (activeYear := getYear (_activeDate st)).
  assert (Hyears :
    map (@value D) (concat (map (map (cellAt steps st)) (pageRows activeYear)))
    = map (fun i => activeYear - Z.rem activeYear 24 + Z.of_nat i) (seq 0 24)).
  { reflexivity. }
  rewrite Hyears.
  set (first := activeYear - Z.rem activeYear 24).
  repeat split.
  - cbn [seq map]. repeat constructor; lia.
  - unfold pageRows. cbn [seq map]. repeat constructor.
Qed.

(** C2. A cell [_init] generates is enabled if and only if its year is not
    after the year of [maxDate] when that is set, not before the year of
    [minDate] when that is set, and, when a [dateFilter] is set, some day of
    the year passes it; so a year beyond a bound is enabled under no filter. *)
Theorem generated_cell_enabled_iff (st : view) (steps : nat) :
  (forall y, In y (pageYears (getYear (_activeDate st))) ->
             scanBounded steps st y) ->
  exists st',
    _init steps st = Some (tt, st', [MarkForCheck]) /\
    (forall y, In y (pageYears (getYear (_activeDate st))) ->
       exists c, In c (concat (_years st')) /\ value c = y) /\
    forall c, In c (concat (_years st')) ->
      In (value c) (pageYears (getYear (_activeDate st))) /\
      (enabled c = true <->
       notAfterMax st (value c) /\ notBeforeMin st (value c)
       /\ passesFilter st (value c)) /\
      ((exists m, maxDate st = Some m /\ value c > getYear m) ->
       enabled c = false) /\
      ((exists m, minDate st = Some m /\ value c < getYear m) ->
       enabled c = false).
Proof.
  intros Hpage. exists (initialized steps st).
  split; [apply init_runs; exact Hpage|].
  unfold initialized. cbn [_years with_years].
  rewrite <- concat_map, pageYears_rows.
  split.
  { intros y Hy. exists (cellAt steps st y). split; [|reflexivity].
    apply in_map. exact Hy. }
  intros c Hc.
  apply in_map_iff in Hc. destruct Hc as (y & <- & Hy).
  cbn [value enabled cellAt].
  destruct (shouldEnableYear_spec st y steps (Hpage y Hy)) as (b & Hb & Hiff).
  assert (Hen : enabledAt steps st y = b) by (unfold enabledAt; now rewrite Hb).
  rewrite Hen. split; [exact Hy|]. split; [exact Hiff|].
  split.
  - intros (m & Hm & Hgt). destruct b; [|reflexivity].
    destruct Hiff as [Hiff _]. destruct (Hiff eq_refl) as (Hmax & _).
    specialize (Hmax m Hm). lia.
  - intros (m & Hm & Hlt). destruct b; [|reflexivity].
    destruct Hiff as [Hiff _]. destruct (Hiff eq_refl) as (_ & Hmin & _).
    specialize (Hmin m Hm). lia.
Qed.

(** *** Committing a year *)

(** C3. Committing [year] emits [yearSelected] with
    [createDate(year, 0, 1)] and then [selectedChange] with the date of [year]
    that has the month of the active date and its day, the day cut down to the
    length of that month in [year]. *)
Theorem yearSelected_emits (st : view) (year : Z) :
  exists st',
    _yearSelected year st =
    Some (tt, st',
          [YearSelected (createDate year 0 1);
           SelectedChange
             (createDate year (getMonth (activeDate st))
                (Z.min (getDate (activeDate st))
                   (getNumDaysInMonth
                      (createDate year (getMonth (activeDate st)) 1))))]).
Proof. exists st. reflexivity. Qed.

(** C9. Committing a year leaves the instance as it was, the active date
    included: all it does is emit [yearSelected] and [selectedChange]. *)
Theorem yearSelected_keeps_state (st : view) (year : Z) :
  exists effs,
    _yearSelected year st = Some (tt, st, effs) /\
    Forall (fun e => (exists d, e = YearSelected d)
                     \/ (exists d, e = SelectedChange d)) effs.
Proof.
  eexists. split; [reflexivity|].
  constructor; [left; eexists; reflexivity|].
  constructor; [right; eexists; reflexivity|].
  constructor.
Qed.

(** *** The bounds *)

Lemma getValidDateOrNull_valid (obj : option D) :
  _getValidDateOrNull obj = None \/
  exists d, _getValidDateOrNull obj = Some d /\ obj = Some d /\ validDate d.
Proof.
  unfold _getValidDateOrNull, validDate.
  destruct obj as [d|]; [|left; reflexivity].
  destruct (isDateInstance d) eqn:Hi, (isValid d) eqn:Hv; cbn [andb];
    try (left; reflexivity).
  right. exists d. repeat split; assumption.
Qed.

(** C10. Assigning [minDate] or [maxDate] stores the value if the adapter
    accepts it and [null] otherwise, and does nothing else: the active date is
    not clamped again, the grid is not generated again, nothing is emitted. *)
Theorem bounds_setters_only_store (st : view) (v : option D) :
  let stored := _getValidDateOrNull (deserialize v) in
  set_minDate v st = Some (tt, with_minDate st stored, []) /\
  set_maxDate v st = Some (tt, with_maxDate st stored, []) /\
  _minDate (with_minDate st stored) = stored /\
  _maxDate (with_maxDate st stored) = stored /\
  _activeDate (with_minDate st stored) = _activeDate st /\
  _activeDate (with_maxDate st stored) = _activeDate st /\
  _years (with_minDate st stored) = _years st /\
  _years (with_maxDate st stored) = _years st /\
  (deserialize v = None -> stored = None) /\
  (forall d, deserialize v = Some d ->
             stored = if isDateInstance d && isValid d then Some d else None).
Proof.
  cbn zeta. repeat split.
  - intros ->. reflexivity.
  - intros d ->. reflexivity.
Qed.

Lemma setters_keep_boundsValid (st : view) (v : option D) :
  boundsValid st ->
  boundsValid (with_minDate st (_getValidDateOrNull (deserialize v))) /\
  boundsValid (with_maxDate st (_getValidDateOrNull (deserialize v))).
Proof.
  intros [Hlo Hhi].
  pose proof (getValidDateOrNull_valid (deserialize v)) as Hv.
  unfold boundsValid, minDate, maxDate. cbn [_minDate _maxDate with_minDate
    with_maxDate].
  split; split; intros m Hm;
    try (apply Hlo; exact Hm); try (apply Hhi; exact Hm);
    (destruct Hv as [Hv | (d & Hv & _ & Hd)]; rewrite Hv in Hm;
     [discriminate | injection Hm as <-; exact Hd]).
Qed.

(** *** Assigning the active date *)

Lemma set_activeDate_runs (st : view) (steps : nat) (v : D) :
  (forall y, In y (pageYears (getYear (_activeDate (assigned st v)))) ->
             scanBounded steps st y) ->
  set_activeDate steps v st =
  if samePage (_activeDate st) (_activeDate (assigned st v))
  then Some (tt, assigned st v, [])
  else Some (tt, initialized steps (assigned st v), [MarkForCheck]).
Proof.
  intros Hpage. unfold set_activeDate.
  rewrite bind_this, bind_assign, bind_this.
  fold (validOrToday v). fold (assigned st v).
  fold (pageOf (getYear (_activeDate st))).
  fold (pageOf (getYear (_activeDate (assigned st v)))).
  fold (samePage (_activeDate st) (_activeDate (assigned st v))).
  destruct (samePage _ _); cbn [negb]; [reflexivity|].
  apply init_runs. exact Hpage.
Qed.

(** C4. An assignment to [activeDate] runs [_init], and so generates the
    cells again, if and only if [floor(oldYear / 24)] and
    [floor(newYear / 24)] differ, the years being those of the active date
    before and after the assignment. *)
Theorem activeDate_regenerates_iff_page_changes
    (st : view) (steps : nat) (v : D) :
  (forall y, In y (pageYears (getYear (_activeDate (assigned st v)))) ->
             scanBounded steps st y) ->
  exists st' effs,
    set_activeDate steps v st = Some (tt, st', effs) /\
    _activeDate st' = clampDate (validOrToday v) (minDate st) (maxDate st) /\
    let oldYear := getYear (_activeDate st) in
    let newYear := getYear (_activeDate st') in
    (In MarkForCheck effs <-> oldYear / 24 <> newYear / 24) /\
    (oldYear / 24 = newYear / 24 ->
     st' = assigned st v /\ _years st' = _years st /\ effs = []) /\
    (oldYear / 24 <> newYear / 24 ->
     st' = initialized steps (assigned st v) /\ effs = [MarkForCheck]).
Proof.
  intros Hpage. rewrite (set_activeDate_runs st steps v Hpage).
  unfold samePage, pageOf, yearsPerPage.
  destruct (_ =? _) eqn:Hq; [apply Z.eqb_eq in Hq | apply Z.eqb_neq in Hq].
  - exists (assigned st v), []. split; [reflexivity|].
    split; [reflexivity|]. cbn zeta. split; [|split].
    + split; [intros [] | intros Hne; contradiction].
    + intros _. repeat split.
    + intros Hne. contradiction.
  - exists (initialized steps (assigned st v)), [MarkForCheck].
    split; [reflexivity|]. split; [reflexivity|]. cbn zeta.
    change (_activeDate (initialized steps (assigned st v)))
      with (_activeDate (assigned st v)).
    split; [|split].
    + split; [intros _; exact Hq | intros _; left; reflexivity].
    + intros Heq. contradiction.
    + intros _. split; reflexivity.
Qed.

Lemma set_activeDate_result (st : view) (steps : nat) (v : D) :
  (forall y, scanBounded steps st y) ->
  exists st' effs,
    set_activeDate steps v st = Some (tt, st', effs) /\
    (effs = [] \/ effs = [MarkForCheck]) /\
    _activeDate st' = clampDate (validOrToday v) (minDate st) (maxDate st) /\
    minDate st' = minDate st /\ maxDate st' = maxDate st.
Proof.
  intros Hscan. rewrite set_activeDate_runs by (intros y _; apply Hscan).
  destruct (samePage _ _); do 2 eexists; (split; [reflexivity|]);
    repeat split; auto.
Qed.

(** *** The keyboard *)

Lemma keydownSwitch_unrecognized (st : view) (steps : nat)
    (event : KeyboardEvent) (isRtl : bool) :
  recognized (keyCode event) = false ->
  keydownSwitch steps event isRtl st = Some (false, st, []).
Proof.
  unfold recognized. rewrite !orb_false_iff.
  intros (((((((((H1 & H2) & H3) & H4) & H5) & H6) & H7) & H8) & H9) & H10).
  unfold keydownSwitch. rewrite bind_this.
  rewrite H1, H2, H3, H4, H5, H6, H7, H8, H9, H10. reflexivity.
Qed.

Ltac assignment_case Hscan :=
  match goal with
  | |- context [bind (set_activeDate ?steps ?v) _ ?st] =>
      destruct (@set_activeDate_result st steps v Hscan)
        as (st1 & e1 & Hset & He1 & _);
      erewrite bind_result by exact Hset;
      exists st1, e1; unfold ret; rewrite app_nil_r; split; [reflexivity|];
      intros d Hd; destruct He1 as [-> | ->];
      [ destruct Hd | destruct Hd as [Hd | []]; discriminate ]
  end.

Lemma keydownSwitch_recognized (st : view) (steps : nat)
    (event : KeyboardEvent) (isRtl : bool) :
  recognized (keyCode event) = true ->
  (forall y, scanBounded steps st y) ->
  exists st' effs,
    keydownSwitch steps event isRtl st = Some (true, st', effs) /\
    forall d, ~ In (ActiveDateChange d) effs.
Proof.
  intros Hrec Hscan. unfold recognized in Hrec.
  unfold keydownSwitch. rewrite bind_this.
  destruct (keyCode event =? LEFT_ARROW); [assignment_case Hscan|].
  destruct (keyCode event =? RIGHT_ARROW); [assignment_case Hscan|].
  destruct (keyCode event =? UP_ARROW); [assignment_case Hscan|].
  destruct (keyCode event =? DOWN_ARROW); [assignment_case Hscan|].
  destruct (keyCode event =? HOME); [assignment_case Hscan|].
  destruct (keyCode event =? END); [assignment_case Hscan|].
  destruct (keyCode event =? PAGE_UP); [assignment_case Hscan|].
  destruct (keyCode event =? PAGE_DOWN); [assignment_case Hscan|].
  cbn [orb] in Hrec. rewrite Hrec.
  do 2 eexists. split; [reflexivity|].
  intros d [Hd | [Hd | []]]; discriminate.
Qed.

(** What the handler does after a [case] of the [switch] has run. *)
Lemma handleKeydown_after_switch (st st' : view) (steps : nat)
    (event : KeyboardEvent) (effs : list (Effect D)) :
  keydownSwitch steps event (_isRtl st) st = Some (true, st', effs) ->
  _handleCalendarBodyKeydown steps event st =
  Some (tt, st',
        effs ++
        (if negb (compareDate (_activeDate st) (_activeDate st') =? 0)
         then [ActiveDateChange (_activeDate st')] else [])
        ++ [FocusActiveCell; PreventDefault]).
Proof.
  intros Hsw. unfold _handleCalendarBodyKeydown.
  rewrite bind_this. erewrite bind_result by exact Hsw.
  cbn iota. rewrite bind_this. unfold activeDate.
  destruct (negb _); reflexivity.
Qed.

(** C8. A key code the [switch] has no [case] for leaves the instance as it
    is and has no effect at all: no event is emitted, no cell is focused and
    [preventDefault] is not called. *)
Theorem unrecognized_key_is_ignored (st : view) (steps : nat)
    (event : KeyboardEvent) :
  keyCode event <> LEFT_ARROW -> keyCode event <> RIGHT_ARROW ->
  keyCode event <> UP_ARROW -> keyCode event <> DOWN_ARROW ->
  keyCode event <> HOME -> keyCode event <> END ->
  keyCode event <> PAGE_UP -> keyCode event <> PAGE_DOWN ->
  keyCode event <> ENTER -> keyCode event <> SPACE ->
  _handleCalendarBodyKeydown steps event st = Some (tt, st, []).
Proof.
  intros H1 H2 H3 H4 H5 H6 H7 H8 H9 H10.
  assert (Hsw : keydownSwitch steps event (_isRtl st) st = Some (false, st, [])).
  { apply keydownSwitch_unrecognized. unfold recognized.
    apply Z.eqb_neq in H1, H2, H3, H4, H5, H6, H7, H8, H9, H10.
    rewrite H1, H2, H3, H4, H5, H6, H7, H8, H9, H10. reflexivity. }
  unfold _handleCalendarBodyKeydown. rewrite bind_this.
  erewrite bind_result by exact Hsw. reflexivity.
Qed.

(** C5, as the code has it. For every key code the [switch] has a [case]
    for, [activeDateChange] is emitted if and only if [compareDate] of the
    active date before and after is not zero, that is when the date, by the
    adapter's comparison, has changed; it is emitted with the new active
    date. *)
Theorem activeDateChange_iff_date_changed (st : view) (steps : nat)
    (event : KeyboardEvent) :
  recognized (keyCode event) = true ->
  (forall y, scanBounded steps st y) ->
  exists st' effs,
    _handleCalendarBodyKeydown steps event st = Some (tt, st', effs) /\
    forall d,
      In (ActiveDateChange d) effs <->
      compareDate (_activeDate st) (_activeDate st') <> 0
      /\ d = _activeDate st'.
Proof.
  intros Hrec Hscan.
  destruct (@keydownSwitch_recognized st steps event (_isRtl st) Hrec Hscan)
    as (st' & e1 & Hsw & Hnone).
  rewrite (@handleKeydown_after_switch _ _ _ _ _ Hsw).
  do 2 eexists. split; [reflexivity|].
  intros d. rewrite !in_app_iff.
  destruct (compareDate (_activeDate st) (_activeDate st') =? 0) eqn:Hc;
    [apply Z.eqb_eq in Hc | apply Z.eqb_neq in Hc]; cbn [negb]; split.
  - intros [H | [[] | [H | [H | []]]]]; try discriminate.
    exfalso. exact (Hnone d H).
  - intros [Hne _]. contradiction.
  - intros [H | [[H | []] | [H | [H | []]]]]; try discriminate.
    + exfalso. exact (Hnone d H).
    + injection H as <-. split; [exact Hc | reflexivity].
  - intros [_ ->]. right. left. left. reflexivity.
Qed.

(** *** Validity and clamping of the active date *)

Lemma validOrToday_cases (v : D) :
  (deserialize (Some v) = None -> validOrToday v = today) /\
  (forall d, deserialize (Some v) = Some d ->
             isDateInstance d && isValid d = false ->
             validOrToday v = today) /\
  (forall d, deserialize (Some v) = Some d ->
             isDateInstance d && isValid d = true ->
             validOrToday v = d).
Proof.
  unfold validOrToday, _getValidDateOrNull.
  repeat split.
  - intros ->. reflexivity.
  - intros d -> ->. reflexivity.
  - intros d -> ->. reflexivity.
Qed.

Lemma validOrToday_valid (v : D) :
  validDate today -> validDate (validOrToday v).
Proof.
  intros Htoday. unfold validOrToday.
  destruct (getValidDateOrNull_valid (deserialize (Some v)))
    as [-> | (d & -> & _ & Hd)]; assumption.
Qed.

(** C7, as the code has it. Every assignment to [activeDate] returns; a value
    the adapter does not accept is replaced by [today()], and the result goes
    through [clampDate] with the stored bounds.  With an adapter whose
    [today()] is valid and whose [clampDate] clamps, and bounds stored by the
    setters, the stored date is valid, and it lies within the bounds when
    [minDate] is not after [maxDate]. *)
Theorem activeDate_assignment_valid_and_clamped
    (st : view) (steps : nat) (v : D) :
  ClampingAdapter ->
  boundsValid st ->
  (forall y, In y (pageYears (getYear (_activeDate (assigned st v)))) ->
             scanBounded steps st y) ->
  exists st' effs,
    set_activeDate steps v st = Some (tt, st', effs) /\
    _activeDate st' = clampDate (validOrToday v) (minDate st) (maxDate st) /\
    (deserialize (Some v) = None -> validOrToday v = today) /\
    (forall d, deserialize (Some v) = Some d ->
               isDateInstance d && isValid d = false ->
               validOrToday v = today) /\
    (forall d, deserialize (Some v) = Some d ->
               isDateInstance d && isValid d = true ->
               validOrToday v = d) /\
    minDate st' = minDate st /\ maxDate st' = maxDate st /\
    validDate (_activeDate st') /\
    (boundsOrdered (minDate st) (maxDate st) ->
     withinBounds (_activeDate st') (minDate st') (maxDate st')).
Proof.
  intros Hlaws [Hlo Hhi] Hpage.
  assert (Hvalid : validDate (_activeDate (assigned st v))).
  { unfold assigned. cbn [_activeDate with_activeDate].
    pose proof (validOrToday_valid v (today_valid Hlaws)) as Hv.
    destruct (clamp_choice Hlaws (validOrToday v) (minDate st) (maxDate st))
      as [-> | [Hc | Hc]]; [exact Hv | apply Hlo | apply Hhi]; exact Hc. }
  assert (Hin : boundsOrdered (minDate st) (maxDate st) ->
                withinBounds (_activeDate (assigned st v))
                  (minDate st) (maxDate st)).
  { intros Hord. apply (clamp_within Hlaws). exact Hord. }
  destruct (validOrToday_cases v) as (Hnull & Hbad & Hgood).
  rewrite (set_activeDate_runs st steps v Hpage).
  destruct (samePage _ _); do 2 eexists; (split; [reflexivity|]);
    (split; [reflexivity|]); repeat (split; [assumption|]);
    (split; [reflexivity|]); (split; [reflexivity|]);
    split; assumption.
Qed.

(** *** HOME and END *)

Lemma not_first_case (a b : Z) : a <> b -> (a =? b) = false.
Proof. apply Z.eqb_neq. Qed.

(** HOME and END assign the active date moved by the offsets of the source,
    [-year % 24] and [24 - year % 24 - 1]. *)
Lemma home_assigns (st : view) (steps : nat) (event : KeyboardEvent) :
  keyCode event = HOME ->
  HOME <> LEFT_ARROW -> HOME <> RIGHT_ARROW ->
  HOME <> UP_ARROW -> HOME <> DOWN_ARROW ->
  (forall y, scanBounded steps st y) ->
  let year := getYear (_activeDate st) in
  let target :=
    addCalendarYears (_activeDate st) (Z.rem (- year) yearsPerPage) in
  exists st' effs,
    _handleCalendarBodyKeydown steps event st = Some (tt, st', effs) /\
    _activeDate st' = clampDate (validOrToday target) (minDate st) (maxDate st).
Proof.
  intros Hk H1 H2 H3 H4 Hscan year target.
  destruct (@set_activeDate_result st steps target Hscan)
    as (st1 & e1 & Hset & _ & Hact & _).
  assert (Hsw : keydownSwitch steps event (_isRtl st) st = Some (true, st1, e1)).
  { unfold keydownSwitch. rewrite bind_this, Hk.
    rewrite !not_first_case by assumption. rewrite Z.eqb_refl.
    fold year. fold target. erewrite bind_result by exact Hset.
    unfold ret. rewrite app_nil_r. reflexivity. }
  rewrite (@handleKeydown_after_switch _ _ _ _ _ Hsw).
  do 2 eexists. split; [reflexivity | exact Hact].
Qed.

Lemma end_assigns (st : view) (steps : nat) (event : KeyboardEvent) :
  keyCode event = END ->
  END <> LEFT_ARROW -> END <> RIGHT_ARROW ->
  END <> UP_ARROW -> END <> DOWN_ARROW -> END <> HOME ->
  (forall y, scanBounded steps st y) ->
  let year := getYear (_activeDate st) in
  let target :=
    addCalendarYears (_activeDate st)
      (yearsPerPage - Z.rem year yearsPerPage - 1) in
  exists st' effs,
    _handleCalendarBodyKeydown steps event st = Some (tt, st', effs) /\
    _activeDate st' = clampDate (validOrToday target) (minDate st) (maxDate st).
Proof.
  intros Hk H1 H2 H3 H4 H5 Hscan year target.
  destruct (@set_activeDate_result st steps target Hscan)
    as (st1 & e1 & Hset & _ & Hact & _).
  assert (Hsw : keydownSwitch steps event (_isRtl st) st = Some (true, st1, e1)).
  { unfold keydownSwitch. rewrite bind_this, Hk.
    rewrite !not_first_case by assumption. rewrite Z.eqb_refl.
    fold year. fold target. erewrite bind_result by exact Hset.
    unfold ret. rewrite app_nil_r. reflexivity. }
  rewrite (@handleKeydown_after_switch _ _ _ _ _ Hsw).
  do 2 eexists. split; [reflexivity | exact Hact].
Qed.

(** From a year that is not negative the two offsets lead to the first and to
    the last year of the page of that year. *)
Lemma home_offset_nonnegative (year : Z) :
  0 <= year ->
  year + Z.rem (- year) yearsPerPage = firstYearOfPage year.
Proof.
  intros Hy. unfold firstYearOfPage, pageOf, yearsPerPage.
  rewrite Z.rem_opp_l by lia. rewrite Z.rem_mod_nonneg by lia.
  pose proof (Z.div_mod year 24 ltac:(lia)). lia.
Qed.

Lemma end_offset_nonnegative (year : Z) :
  0 <= year ->
  year + (yearsPerPage - Z.rem year yearsPerPage - 1) = lastYearOfPage year.
Proof.
  intros Hy. unfold lastYearOfPage, firstYearOfPage, pageOf, yearsPerPage.
  rewrite Z.rem_mod_nonneg by lia.
  pose proof (Z.div_mod year 24 ltac:(lia)). lia.
Qed.

(** From a negative year that is not a multiple of 24, the offset of HOME
    leads to the first year of the following page and that of END to its last
    year. *)
Lemma home_offset_negative (year : Z) :
  year < 0 ->
  Z.rem year yearsPerPage <> 0 ->
  year + Z.rem (- year) yearsPerPage = firstYearOfPage year + yearsPerPage.
Proof.
  intros Hy Hrem. unfold firstYearOfPage, pageOf, yearsPerPage in *.
  rewrite Z.rem_opp_l by lia.
  pose proof (Z.quot_rem' year 24) as Hqr.
  pose proof (Z.rem_bound_pos_neg year 24 ltac:(lia) ltac:(lia)) as Hb.
  pose proof (Z.div_mod year 24 ltac:(lia)) as Hdm.
  pose proof (Z.mod_pos_bound year 24 ltac:(lia)) as Hm.
  lia.
Qed.

Lemma end_offset_negative (year : Z) :
  year < 0 ->
  Z.rem year yearsPerPage <> 0 ->
  year + (yearsPerPage - Z.rem year yearsPerPage - 1)
  = lastYearOfPage year + yearsPerPage.
Proof.
  intros Hy Hrem.
  pose proof (home_offset_negative year Hy Hrem) as Hhome.
  unfold lastYearOfPage, yearsPerPage in *.
  rewrite Z.rem_opp_l in Hhome by lia. lia.
Qed.

End Properties.

(** ** Further properties of the component *)

Section Navigation.

Context {D : Type} {adapter : DateAdapter D} {keys : KeyCodes}.

Local Abbreviation view := (MatMultiYearView D).

(** *** The grid [_init] leaves *)

Lemma gridYears_initialized (st : view) (steps : nat) :
  gridYears (_years (initialized steps st))
  = pageYears (getYear (_activeDate st)).
Proof. reflexivity. Qed.

Lemma pageYears_nth (activeYear : Z) (i : nat) :
  (i < 24)%nat ->
  nth i (pageYears activeYear) 0
  = activeYear - Z.rem activeYear yearsPerPage + Z.of_nat i.
Proof.
  intros Hi. unfold pageYears.
  change (Z.to_nat yearsPerPage) with 24%nat.
  rewrite nth_indep
    with (d' := activeYear - Z.rem activeYear yearsPerPage + Z.of_nat 0)
    by (rewrite length_map, length_seq; exact Hi).
  rewrite (map_nth (fun i => activeYear - Z.rem activeYear yearsPerPage
                             + Z.of_nat i)).
  rewrite seq_nth by exact Hi. reflexivity.
Qed.

Lemma pageYears_in (activeYear y : Z) :
  In y (pageYears activeYear) <->
  activeYear - Z.rem activeYear yearsPerPage <= y
  < activeYear - Z.rem activeYear yearsPerPage + yearsPerPage.
Proof.
  unfold pageYears. change (Z.to_nat yearsPerPage) with 24%nat.
  unfold yearsPerPage. rewrite in_map_iff. split.
  - intros (i & <- & Hi). apply in_seq in Hi. lia.
  - intros Hy.
    exists (Z.to_nat (y - (activeYear - Z.rem activeYear 24))).
    split; [lia|]. apply in_seq. lia.
Qed.

(** For years that are not negative the generated rows depend on the page
    alone. *)
Lemma pageRows_same_page (y1 y2 : Z) :
  0 <= y1 -> 0 <= y2 -> pageOf y1 = pageOf y2 -> pageRows y1 = pageRows y2.
Proof.
  intros H1 H2 Hp. unfold pageRows, pageOf, yearsPerPage in *.
  rewrite !Z.rem_mod_nonneg by lia.
  pose proof (Z.div_mod y1 24 ltac:(lia)).
  pose proof (Z.div_mod y2 24 ltac:(lia)).
  replace (y1 - y1 mod 24) with (y2 - y2 mod 24) by lia. reflexivity.
Qed.

(** X1. [_init] touches the grid and the two derived years and nothing else:
    [_todayYear] becomes the year of [today()], [_selectedYear] the year of
    the first selected date or [null] when there is none, and the active
    date, bounds, filter, selection and direction stay. *)
Theorem init_sets_derived_years_only (st : view) (steps : nat) :
  (forall y, In y (pageYears (getYear (_activeDate st))) ->
             scanBounded steps st y) ->
  exists st',
    _init steps st = Some (tt, st', [MarkForCheck]) /\
    _todayYear st' = Some (getYear today) /\
    (forall d, _selected st = Some d -> _selectedYear st' = Some (getYear d)) /\
    (_selected st = None -> _selectedYear st' = None) /\
    _activeDate st' = _activeDate st /\
    keepsInputs st st'.
Proof.
  intros Hpage. exists (initialized steps st).
  split; [apply init_runs; exact Hpage|].
  unfold initialized, keepsInputs.
  cbn [_todayYear _selectedYear _activeDate _minDate _maxDate dateFilter
       _selected _dir with_years with_todayYear with_selectedYear].
  repeat split.
  - intros d ->. reflexivity.
  - intros ->. reflexivity.
Qed.

(** X2. Every generated cell is labelled, for display and for assistive
    technology alike, with the adapter's name of the first day of its year,
    and spans that year from 1 January to 31 December. *)
Theorem generated_cell_label_and_range (st : view) (steps : nat) :
  (forall y, In y (pageYears (getYear (_activeDate st))) ->
             scanBounded steps st y) ->
  exists st',
    _init steps st = Some (tt, st', [MarkForCheck]) /\
    forall c, In c (concat (_years st')) ->
      displayValue c = getYearName (createDate (value c) 0 1) /\
      ariaLabel c = displayValue c /\
      range_start (range c) = createDate (value c) 0 1 /\
      range_end (range c) = createDate (value c) 11 31.
Proof.
  intros Hpage. exists (initialized steps st).
  split; [apply init_runs; exact Hpage|].
  unfold initialized. cbn [_years with_years].
  rewrite <- concat_map. intros c Hc.
  apply in_map_iff in Hc. destruct Hc as (y & <- & _).
  repeat split.
Qed.

(** X3. When the year of the active date is not negative, [_getActiveCell]
    is an index into the 24 generated cells, and the cell at that index is
    the one of the active year. *)
Theorem active_cell_holds_active_year (st : view) (steps : nat) :
  0 <= getYear (_activeDate st) ->
  (forall y, In y (pageYears (getYear (_activeDate st))) ->
             scanBounded steps st y) ->
  exists st',
    _init steps st = Some (tt, st', [MarkForCheck]) /\
    0 <= _getActiveCell st' < yearsPerPage /\
    nth (Z.to_nat (_getActiveCell st')) (gridYears (_years st')) 0
    = getYear (activeDate st').
Proof.
  intros Hy Hpage. exists (initialized steps st).
  split; [apply init_runs; exact Hpage|].
  rewrite gridYears_initialized.
  unfold _getActiveCell, activeDate.
  change (_activeDate (initialized steps st)) with (_activeDate st).
  pose proof (Z.rem_bound_pos (getYear (_activeDate st)) yearsPerPage Hy
                ltac:(unfold yearsPerPage; lia)) as Hr.
  split; [exact Hr|].
  rewrite pageYears_nth by (unfold yearsPerPage in *; lia). lia.
Qed.

(** X4. When the year of the active date is negative and no multiple of 24,
    [_getActiveCell] is negative and the active year is not among the
    generated cells: the grid shows the 24 years that follow. *)
Theorem negative_active_year_not_in_grid (st : view) (steps : nat) :
  getYear (_activeDate st) < 0 ->
  Z.rem (getYear (_activeDate st)) yearsPerPage <> 0 ->
  (forall y, In y (pageYears (getYear (_activeDate st))) ->
             scanBounded steps st y) ->
  exists st',
    _init steps st = Some (tt, st', [MarkForCheck]) /\
    _getActiveCell st' < 0 /\
    ~ In (getYear (activeDate st')) (gridYears (_years st')) /\
    forall y, In y (gridYears (_years st')) -> getYear (activeDate st') < y.
Proof.
  intros Hy Hrem Hpage. exists (initialized steps st).
  split; [apply init_runs; exact Hpage|].
  rewrite gridYears_initialized.
  unfold _getActiveCell, activeDate.
  change (_activeDate (initialized steps st)) with (_activeDate st).
  assert (Hr : - yearsPerPage < Z.rem (getYear (_activeDate st)) yearsPerPage
               <= 0).
  { apply Z.rem_bound_pos_neg; [reflexivity | lia]. }
  split; [lia|]. split.
  - rewrite pageYears_in. lia.
  - intros y. rewrite pageYears_in. lia.
Qed.

(** X5. A view that is constructed and initialised without any input shows a
    grid in which every year is enabled, whatever the adapter, and has the
    year of [today()] as [_todayYear]. *)
Theorem fresh_view_enables_every_year
    (selection : option D) (dir : option Direction) (steps : nat) :
  exists st',
    ngAfterContentInit steps (constructed selection dir)
    = Some (tt, st', [MarkForCheck]) /\
    gridYears (_years st') = pageYears (getYear today) /\
    (forall c, In c (concat (_years st')) -> enabled c = true) /\
    _todayYear st' = Some (getYear (activeDate st')) /\
    _selectedYear st' = option_map getYear selection.
Proof.
  exists (initialized steps (constructed selection dir)).
  split.
  - apply init_runs. intros y _ Hf. exfalso. apply Hf. reflexivity.
  - split; [apply gridYears_initialized|].
    split; [|split; reflexivity].
    unfold initialized. cbn [_years with_years].
    rewrite <- concat_map. intros c Hc.
    apply in_map_iff in Hc. destruct Hc as (y & <- & _). reflexivity.
Qed.

(** *** The day scan stops at the first day that passes *)

Lemma scanYear_hit (filter : D -> bool) (year : Z) :
  forall (steps : nat) (d : D) (k : nat),
    (k < steps)%nat ->
    (forall j, (j <= k)%nat -> getYear (dayFrom d j) = year) ->
    filter (dayFrom d k) = true ->
    scanYear steps filter year d = Some true.
Proof.
  induction steps as [|steps IH]; intros d k Hk Hin Hf; [lia|].
  cbn [scanYear].
  assert (Hy : getYear d = year) by (apply (Hin O); lia).
  apply Z.eqb_eq in Hy. rewrite Hy.
  destruct (filter d) eqn:Hd; [reflexivity|].
  destruct k as [|k]; [cbn in Hf; congruence|].
  apply (IH (addCalendarDays d 1) k); [lia| |exact Hf].
  intros j Hj. apply (Hin (S j)). lia.
Qed.

Lemma isDayOfYear_check (year : Z) (k : nat) :
  forallb (fun j => getYear (yearDay year j) =? year) (seq 0 (S k)) = true ->
  isDayOfYear year k.
Proof.
  intros Hall j Hj. rewrite forallb_forall in Hall.
  apply Z.eqb_eq. apply Hall. apply in_seq. lia.
Qed.

(** X6. A year within the bounds is enabled as soon as the scan meets a day
    that passes the filter: [k + 1] tests of the loop condition are enough
    when the [k]-th day passes, whether or not the adapter's calendar ever
    leaves the year. *)
Theorem year_enabled_at_first_passing_day
    (st : view) (filter : D -> bool) (year : Z) (k steps : nat) :
  notAfterMax st year ->
  notBeforeMin st year ->
  dateFilter st = Some filter ->
  isDayOfYear year k ->
  filter (yearDay year k) = true ->
  (k < steps)%nat ->
  _shouldEnableYear steps st (Some year) = Some true.
Proof.
  intros Hmax Hmin Hfilter Hday Hpass Hk.
  unfold _shouldEnableYear.
  destruct (boundsGuard_spec st year) as [_ Hguard].
  rewrite (Hguard (conj Hmax Hmin)), Hfilter.
  apply (scanYear_hit filter year steps (createDate year 0 1) k Hk Hday Hpass).
Qed.

(** *** What an assignment of the active date leaves *)

Lemma set_activeDate_outcome (st : view) (steps : nat) (v : D) :
  (forall y, scanBounded steps st y) ->
  exists st' effs,
    set_activeDate steps v st = Some (tt, st', effs) /\
    ((samePage (_activeDate st) (_activeDate (assigned st v)) = true
      /\ st' = assigned st v /\ effs = [])
     \/ (samePage (_activeDate st) (_activeDate (assigned st v)) = false
         /\ st' = initialized steps (assigned st v)
         /\ effs = [MarkForCheck])).
Proof.
  intros Hscan.
  rewrite (set_activeDate_runs st steps v) by (intros y _; apply Hscan).
  destruct (samePage _ _); do 2 eexists; (split; [reflexivity|]);
    [left | right]; repeat split.
Qed.

(** X7. An assignment of the active date keeps the grid current when the
    years are not negative: if [_init] would have left the grid as it is
    before the assignment, it would leave it as it is after, whether the
    setter has run [_init] or, the page being the same, has skipped it. *)
Theorem assignment_keeps_grid_current (st : view) (steps : nat) (v : D) :
  gridCurrent steps st ->
  0 <= getYear (_activeDate st) ->
  0 <= getYear (_activeDate (assigned st v)) ->
  (forall y, scanBounded steps st y) ->
  exists st' effs,
    set_activeDate steps v st = Some (tt, st', effs) /\
    gridCurrent steps st'.
Proof.
  intros (s0 & e0 & Hinit & Hgrid) Hold Hnew Hscan.
  rewrite (init_runs st steps) in Hinit by (intros y _; apply Hscan).
  injection Hinit as <- _.
  destruct (set_activeDate_outcome st steps v Hscan)
    as (st' & effs & Hset & [(Hsame & -> & ->) | (Hsame & -> & ->)]);
    do 2 eexists; (split; [exact Hset|]); unfold gridCurrent.
  - exists (initialized steps (assigned st v)), [MarkForCheck].
    split; [apply init_runs; intros y _; apply Hscan|].
    change (_years (assigned st v)) with (_years st). rewrite <- Hgrid.
    unfold initialized. cbn [_years with_years].
    apply Z.eqb_eq in Hsame.
    rewrite (pageRows_same_page _ _ Hold Hnew Hsame). reflexivity.
  - exists (initialized steps (initialized steps (assigned st v))),
           [MarkForCheck].
    split; [apply init_runs; intros y _; apply Hscan|]. reflexivity.
Qed.

(** *** The keyboard, key by key *)

Ltac outcome_case Hscan :=
  match goal with
  | |- context [bind (set_activeDate ?steps ?v) _ ?st] =>
      destruct (set_activeDate_outcome st steps v Hscan)
        as (st1 & e1 & Hset & Hout);
      erewrite bind_result by exact Hset;
      exists st1, e1; unfold ret; rewrite app_nil_r; split; [reflexivity|];
      split;
      [ right; exists v;
        destruct Hout as [(_ & -> & _) | (_ & -> & _)]; [left | right];
        reflexivity
      | destruct Hout as [(_ & _ & ->) | (_ & _ & ->)];
        split; intros Hin; repeat (destruct Hin as [Hin | Hin]);
        try discriminate; try contradiction ]
  end.

Lemma keydownSwitch_outcome (st : view) (steps : nat)
    (event : KeyboardEvent) (isRtl : bool) :
  recognized (keyCode event) = true ->
  (forall y, scanBounded steps st y) ->
  exists st' effs,
    keydownSwitch steps event isRtl st = Some (true, st', effs) /\
    (st' = st \/
     exists v, st' = assigned st v \/ st' = initialized steps (assigned st v))
    /\ (~ In FocusActiveCell effs /\ ~ In PreventDefault effs).
Proof.
  intros Hrec Hscan. unfold recognized in Hrec.
  unfold keydownSwitch. rewrite bind_this.
  destruct (keyCode event =? LEFT_ARROW); [outcome_case Hscan|].
  destruct (keyCode event =? RIGHT_ARROW); [outcome_case Hscan|].
  destruct (keyCode event =? UP_ARROW); [outcome_case Hscan|].
  destruct (keyCode event =? DOWN_ARROW); [outcome_case Hscan|].
  destruct (keyCode event =? HOME); [outcome_case Hscan|].
  destruct (keyCode event =? END); [outcome_case Hscan|].
  destruct (keyCode event =? PAGE_UP); [outcome_case Hscan|].
  destruct (keyCode event =? PAGE_DOWN); [outcome_case Hscan|].
  cbn [orb] in Hrec. rewrite Hrec.
  do 2 eexists. split; [reflexivity|].
  split; [left; reflexivity|].
  split; intros [Hin | [Hin | []]]; discriminate.
Qed.

(** X8. For every key code the [switch] has a [case] for, the handler ends
    by asking for the focus of the active cell and then calling
    [preventDefault], each once. *)
Theorem recognized_key_focuses_and_prevents_default
    (st : view) (steps : nat) (event : KeyboardEvent) :
  recognized (keyCode event) = true ->
  (forall y, scanBounded steps st y) ->
  exists st' before,
    _handleCalendarBodyKeydown steps event st
    = Some (tt, st', before ++ [FocusActiveCell; PreventDefault]) /\
    ~ In FocusActiveCell before /\ ~ In PreventDefault before.
Proof.
  intros Hrec Hscan.
  destruct (keydownSwitch_outcome st steps event (_isRtl st) Hrec Hscan)
    as (st' & e1 & Hsw & _ & Hfocus & Hprevent).
  rewrite (handleKeydown_after_switch _ _ _ _ _ Hsw).
  rewrite app_assoc. do 2 eexists. split; [reflexivity|].
  split; intros Hin; apply in_app_iff in Hin; destruct Hin as [Hin | Hin];
    try contradiction; destruct (negb _); cbn in Hin;
    repeat (destruct Hin as [Hin | Hin]); try discriminate; contradiction.
Qed.

(** X9. Whatever the key, the handler leaves the bounds, the filter, the
    selection and the direction of the view as they are; bounds that the
    adapter accepts stay so. *)
Theorem keydown_keeps_inputs
    (st : view) (steps : nat) (event : KeyboardEvent) :
  (forall y, scanBounded steps st y) ->
  exists st' effs,
    _handleCalendarBodyKeydown steps event st = Some (tt, st', effs) /\
    keepsInputs st st' /\
    (boundsValid st -> boundsValid st').
Proof.
  intros Hscan.
  assert (Hkeep : forall st', keepsInputs st st' ->
                              boundsValid st -> boundsValid st').
  { intros st' (Hlo & Hhi & _) [Vlo Vhi]. unfold boundsValid, minDate, maxDate.
    rewrite Hlo, Hhi. split; assumption. }
  destruct (recognized (keyCode event)) eqn:Hrec.
  - destruct (keydownSwitch_outcome st steps event (_isRtl st) Hrec Hscan)
      as (st' & e1 & Hsw & Hst & _).
    rewrite (handleKeydown_after_switch _ _ _ _ _ Hsw).
    do 2 eexists. split; [reflexivity|].
    assert (Hin : keepsInputs st st').
    { destruct Hst as [-> | (v & [-> | ->])]; repeat split. }
    split; [exact Hin | apply Hkeep; exact Hin].
  - pose proof (keydownSwitch_unrecognized st steps event (_isRtl st) Hrec)
      as Hsw.
    exists st, []. split.
    + unfold _handleCalendarBodyKeydown. rewrite bind_this.
      erewrite bind_result by exact Hsw. reflexivity.
    + split; [repeat split | auto].
Qed.

(** An assignment that moves the active date by [k] years and is stored as
    it is runs [_init] exactly when the page changes. *)
Lemma assignment_by_years (st : view) (steps : nat) (v : D) (k : Z) :
  getYear v = getYear (_activeDate st) + k ->
  storedAsIs st v ->
  (forall y, scanBounded steps st y) ->
  exists st' effs,
    set_activeDate steps v st = Some (tt, st', effs) /\
    _activeDate st' = v /\
    ((pageOf (getYear (_activeDate st) + k) = pageOf (getYear (_activeDate st))
      /\ st' = assigned st v /\ effs = [])
     \/ (pageOf (getYear (_activeDate st) + k)
          <> pageOf (getYear (_activeDate st))
         /\ st' = initialized steps (assigned st v)
         /\ effs = [MarkForCheck])).
Proof.
  intros Hyear Hstored Hscan.
  assert (Hv : _activeDate (assigned st v) = v) by exact Hstored.
  destruct (set_activeDate_outcome st steps v Hscan)
    as (st' & effs & Hset & Hout).
  exists st', effs. split; [exact Hset|].
  unfold samePage in Hout. rewrite Hv, Hyear in Hout.
  destruct Hout as [(Hsame & -> & ->) | (Hsame & -> & ->)].
  - apply Z.eqb_eq in Hsame. split; [exact Hv|]. left. auto.
  - apply Z.eqb_neq in Hsame. split; [exact Hv|]. right. auto.
Qed.

Ltac run_switch Hk Hset :=
  unfold keydownSwitch; rewrite bind_this, Hk;
  rewrite ?not_first_case by assumption; rewrite Z.eqb_refl;
  erewrite bind_result by exact Hset;
  unfold ret; rewrite app_nil_r; reflexivity.

(** X10. ENTER and SPACE commit the year of the active date: the handler
    leaves the view as it is and emits [yearSelected] with the first day of
    that year and [selectedChange] with the active date rebuilt by
    [createDate], before the focus request and [preventDefault]. *)
Theorem commit_key_selects_active_year
    (st : view) (steps : nat) (event : KeyboardEvent) :
  keyCode event = ENTER \/ keyCode event = SPACE ->
  keyCode event <> LEFT_ARROW -> keyCode event <> RIGHT_ARROW ->
  keyCode event <> UP_ARROW -> keyCode event <> DOWN_ARROW ->
  keyCode event <> HOME -> keyCode event <> END ->
  keyCode event <> PAGE_UP -> keyCode event <> PAGE_DOWN ->
  compareDate (_activeDate st) (_activeDate st) = 0 ->
  let active := _activeDate st in
  let year := getYear active in
  _handleCalendarBodyKeydown steps event st =
  Some (tt, st,
        [YearSelected (createDate year 0 1);
         SelectedChange
           (createDate year (getMonth active)
              (Z.min (getDate active)
                 (getNumDaysInMonth (createDate year (getMonth active) 1))));
         FocusActiveCell; PreventDefault]).
Proof.
  intros Hcommit H1 H2 H3 H4 H5 H6 H7 H8 Hsame active year.
  assert (Hsw : keydownSwitch steps event (_isRtl st) st
                = Some (true, st,
                        [YearSelected (createDate year 0 1);
                         SelectedChange
                           (createDate year (getMonth active)
                              (Z.min (getDate active)
                                 (getNumDaysInMonth
                                    (createDate year (getMonth active) 1))))])).
  { unfold keydownSwitch. rewrite bind_this.
    rewrite !not_first_case by assumption.
    assert (Hor : (keyCode event =? ENTER) || (keyCode event =? SPACE) = true).
    { apply orb_true_iff.
      destruct Hcommit as [-> | ->]; [left | right]; apply Z.eqb_refl. }
    rewrite Hor. reflexivity. }
  rewrite (handleKeydown_after_switch _ _ _ _ _ Hsw).
  rewrite Hsame. reflexivity.
Qed.

(** X11. Right-to-left layout swaps the horizontal arrows: LEFT_ARROW in a
    right-to-left view does to the active date, the grid and the outside
    world what RIGHT_ARROW does in a left-to-right view, and the other way
    round. *)
Theorem rtl_swaps_horizontal_arrows
    (st : view) (steps : nat) (left right : KeyboardEvent) :
  keyCode left = LEFT_ARROW ->
  keyCode right = RIGHT_ARROW ->
  RIGHT_ARROW <> LEFT_ARROW ->
  (forall y, scanBounded steps st y) ->
  (exists st' effs,
     _handleCalendarBodyKeydown steps left (with_dir st (Some rtl))
     = Some (tt, with_dir st' (Some rtl), effs) /\
     _handleCalendarBodyKeydown steps right (with_dir st (Some ltr))
     = Some (tt, with_dir st' (Some ltr), effs) /\
     _handleCalendarBodyKeydown steps right (with_dir st None)
     = Some (tt, with_dir st' None, effs)) /\
  (exists st' effs,
     _handleCalendarBodyKeydown steps right (with_dir st (Some rtl))
     = Some (tt, with_dir st' (Some rtl), effs) /\
     _handleCalendarBodyKeydown steps left (with_dir st (Some ltr))
     = Some (tt, with_dir st' (Some ltr), effs) /\
     _handleCalendarBodyKeydown steps left (with_dir st None)
     = Some (tt, with_dir st' None, effs)).
Proof.
  intros Hl Hr Hne Hscan.
  assert (Hrun : forall (ev : KeyboardEvent) (dir : option Direction) (k : Z),
    keydownSwitch steps ev (_isRtl (with_dir st dir)) (with_dir st dir)
    = bind (set_activeDate steps (addCalendarYears (_activeDate st) k))
        (fun _ => ret true) (with_dir st dir) ->
    exists st' effs,
      set_activeDate steps (addCalendarYears (_activeDate st) k) st
      = Some (tt, st', effs) /\
      _handleCalendarBodyKeydown steps ev (with_dir st dir)
      = Some (tt, with_dir st' dir,
              effs ++
              (if negb (compareDate (_activeDate st) (_activeDate st') =? 0)
               then [ActiveDateChange (_activeDate st')] else [])
              ++ [FocusActiveCell; PreventDefault])).
  { intros ev dir k Hsw.
    set (v := addCalendarYears (_activeDate st) k) in *.
    destruct (set_activeDate_outcome st steps v Hscan)
      as (st' & effs & Hset & Hout).
    destruct (set_activeDate_outcome (with_dir st dir) steps v Hscan)
      as (st2 & effs2 & Hset2 & Hout2).
    assert (Hst2 : st2 = with_dir st' dir /\ effs2 = effs).
    { change (samePage (_activeDate (with_dir st dir))
                (_activeDate (assigned (with_dir st dir) v)))
        with (samePage (_activeDate st) (_activeDate (assigned st v)))
        in Hout2.
      destruct Hout as [(Hs & -> & ->) | (Hs & -> & ->)],
               Hout2 as [(Hs2 & -> & ->) | (Hs2 & -> & ->)];
        try congruence; split; reflexivity. }
    destruct Hst2 as [-> ->].
    exists st', effs. split; [exact Hset|].
    erewrite bind_result in Hsw by exact Hset2.
    unfold ret in Hsw. rewrite app_nil_r in Hsw.
    rewrite (handleKeydown_after_switch _ _ _ _ _ Hsw). reflexivity. }
  assert (Hnl : (RIGHT_ARROW =? LEFT_ARROW) = false)
    by (apply Z.eqb_neq; exact Hne).
  split.
  - destruct (Hrun left (Some rtl) 1) as (st' & effs & Hset & Hleft).
    { unfold keydownSwitch. rewrite bind_this, Hl, Z.eqb_refl. reflexivity. }
    destruct (Hrun right (Some ltr) 1) as (st2 & effs2 & Hset2 & Hright).
    { unfold keydownSwitch. rewrite bind_this, Hr, Hnl, Z.eqb_refl.
      reflexivity. }
    destruct (Hrun right None 1) as (st3 & effs3 & Hset3 & Hnone).
    { unfold keydownSwitch. rewrite bind_this, Hr, Hnl, Z.eqb_refl.
      reflexivity. }
    rewrite Hset in Hset2, Hset3.
    injection Hset2 as <- <-. injection Hset3 as <- <-.
    do 2 eexists. split; [exact Hleft|]. split; [exact Hright | exact Hnone].
  - destruct (Hrun right (Some rtl) (-1)) as (st' & effs & Hset & Hright).
    { unfold keydownSwitch. rewrite bind_this, Hr, Hnl, Z.eqb_refl.
      reflexivity. }
    destruct (Hrun left (Some ltr) (-1)) as (st2 & effs2 & Hset2 & Hleft).
    { unfold keydownSwitch. rewrite bind_this, Hl, Z.eqb_refl. reflexivity. }
    destruct (Hrun left None (-1)) as (st3 & effs3 & Hset3 & Hnone).
    { unfold keydownSwitch. rewrite bind_this, Hl, Z.eqb_refl. reflexivity. }
    rewrite Hset in Hset2, Hset3.
    injection Hset2 as <- <-. injection Hset3 as <- <-.
    do 2 eexists. split; [exact Hright|]. split; [exact Hleft | exact Hnone].
Qed.

(** A key that assigns the active date moved by [k] years, when the adapter
    adds the years and the date is stored as it is. *)
Lemma keydown_moves_by_years
    (st : view) (steps : nat) (event : KeyboardEvent) (k : Z) :
  let active := _activeDate st in
  let target := addCalendarYears active k in
  keydownSwitch steps event (_isRtl st) st
  = bind (set_activeDate steps target) (fun _ => ret true) st ->
  getYear target = getYear active + k ->
  storedAsIs st target ->
  (forall y, scanBounded steps st y) ->
  exists st' regen,
    _handleCalendarBodyKeydown steps event st
    = Some (tt, st',
            regen ++
            (if negb (compareDate active target =? 0)
             then [ActiveDateChange target] else [])
            ++ [FocusActiveCell; PreventDefault]) /\
    _activeDate st' = target /\
    ((pageOf (getYear active + k) = pageOf (getYear active)
      /\ st' = assigned st target /\ regen = [])
     \/ (pageOf (getYear active + k) <> pageOf (getYear active)
         /\ st' = initialized steps (assigned st target)
         /\ regen = [MarkForCheck])).
Proof.
  intros active target Hsw Hyear Hstored Hscan.
  destruct (assignment_by_years st steps target k Hyear Hstored Hscan)
    as (st' & regen & Hset & Hact & Hout).
  erewrite bind_result in Hsw by exact Hset.
  unfold ret in Hsw. rewrite app_nil_r in Hsw.
  rewrite (handleKeydown_after_switch _ _ _ _ _ Hsw).
  exists st', regen. rewrite Hact. fold active. auto.
Qed.

Ltac switch_to Hk :=
  unfold keydownSwitch; rewrite bind_this, Hk;
  rewrite ?not_first_case by assumption; rewrite Z.eqb_refl; reflexivity.

Lemma markForCheck_in_trace (regen : list (Effect D)) (c : bool) (d : D) :
  In MarkForCheck
     (regen ++ (if c then [ActiveDateChange d] else [])
      ++ [FocusActiveCell; PreventDefault])
  <-> In MarkForCheck regen.
Proof.
  rewrite !in_app_iff. split; [|auto].
  intros [H | [H | [H | [H | []]]]]; try discriminate; [exact H|].
  destruct c; [destruct H as [H | []]; discriminate | destruct H].
Qed.

Lemma page_after_pages (year pages : Z) :
  pageOf (year + yearsPerPage * pages) = pageOf year + pages.
Proof.
  unfold pageOf, yearsPerPage.
  rewrite (Z.mul_comm 24 pages). apply Z.div_add. lia.
Qed.

Lemma rem_after_pages (year pages : Z) :
  0 <= year -> 0 <= year + yearsPerPage * pages ->
  Z.rem (year + yearsPerPage * pages) yearsPerPage = Z.rem year yearsPerPage.
Proof.
  intros H1 H2. unfold yearsPerPage in *.
  rewrite !Z.rem_mod_nonneg by lia.
  rewrite (Z.mul_comm 24 pages). apply Z.mod_add. lia.
Qed.

(** X12. PAGE_DOWN moves the active date one page on, and ten pages with the
    ALT key: when the adapter adds the years and the date is stored as it
    is, the page number grows by that much, the grid is generated again for
    the new year, and for years that are not negative the active cell keeps
    its position in the grid. *)
Theorem page_down_turns_pages
    (st : view) (steps : nat) (event : KeyboardEvent) :
  keyCode event = PAGE_DOWN ->
  PAGE_DOWN <> LEFT_ARROW -> PAGE_DOWN <> RIGHT_ARROW ->
  PAGE_DOWN <> UP_ARROW -> PAGE_DOWN <> DOWN_ARROW ->
  PAGE_DOWN <> HOME -> PAGE_DOWN <> END -> PAGE_DOWN <> PAGE_UP ->
  let active := _activeDate st in
  let pages := if altKey event then 10 else 1 in
  let target :=
    addCalendarYears active
      (if altKey event then yearsPerPage * 10 else yearsPerPage) in
  getYear target = getYear active + yearsPerPage * pages ->
  storedAsIs st target ->
  (forall y, scanBounded steps st y) ->
  exists st' effs,
    _handleCalendarBodyKeydown steps event st = Some (tt, st', effs) /\
    _activeDate st' = target /\
    pageOf (getYear (_activeDate st')) = pageOf (getYear active) + pages /\
    In MarkForCheck effs /\
    gridYears (_years st') = pageYears (getYear target) /\
    (0 <= getYear active -> _getActiveCell st' = _getActiveCell st).
Proof.
  intros Hk H1 H2 H3 H4 H5 H6 H7 active pages target Hyear Hstored Hscan.
  assert (Hpages : 0 < pages) by (subst pages; destruct (altKey event); lia).
  destruct (keydown_moves_by_years st steps event
              (if altKey event then yearsPerPage * 10 else yearsPerPage))
    as (st' & regen & Hrun & Hact & Hout);
    [switch_to Hk | | exact Hstored | exact Hscan | ].
  { fold active target. rewrite Hyear. subst pages.
    destruct (altKey event); unfold yearsPerPage; lia. }
  fold active target in Hrun, Hact, Hout.
  replace (if altKey event then yearsPerPage * 10 else yearsPerPage)
    with (yearsPerPage * pages) in Hout
    by (subst pages; destruct (altKey event); unfold yearsPerPage; lia).
  rewrite page_after_pages in Hout.
  destruct Hout as [(Hsame & _) | (_ & -> & ->)]; [lia|].
  do 2 eexists. split; [exact Hrun|].
  split; [exact Hact|].
  change (_activeDate (initialized steps (assigned st target)))
    with (_activeDate (assigned st target)).
  assert (Hv : _activeDate (assigned st target) = target) by exact Hstored.
  rewrite gridYears_initialized, Hv, Hyear.
  split; [apply page_after_pages|].
  split; [apply markForCheck_in_trace; left; reflexivity|].
  split; [reflexivity|].
  intros Hy. unfold _getActiveCell, activeDate.
  change (_activeDate (initialized steps (assigned st target)))
    with (_activeDate (assigned st target)).
  rewrite Hv, Hyear. apply rem_after_pages; [exact Hy|].
  unfold active in *. unfold yearsPerPage. lia.
Qed.

(** X13. PAGE_UP moves the active date one page back, and ten pages with the
    ALT key: when the adapter subtracts the years and the date is stored as
    it is, the page number falls by that much, the grid is generated again
    for the new year, and as long as the new year is not negative the
    active cell keeps its position in the grid. *)
Theorem page_up_turns_pages
    (st : view) (steps : nat) (event : KeyboardEvent) :
  keyCode event = PAGE_UP ->
  PAGE_UP <> LEFT_ARROW -> PAGE_UP <> RIGHT_ARROW ->
  PAGE_UP <> UP_ARROW -> PAGE_UP <> DOWN_ARROW ->
  PAGE_UP <> HOME -> PAGE_UP <> END ->
  let active := _activeDate st in
  let pages := if altKey event then 10 else 1 in
  let target :=
    addCalendarYears active
      (if altKey event then - yearsPerPage * 10 else - yearsPerPage) in
  getYear target = getYear active - yearsPerPage * pages ->
  storedAsIs st target ->
  (forall y, scanBounded steps st y) ->
  exists st' effs,
    _handleCalendarBodyKeydown steps event st = Some (tt, st', effs) /\
    _activeDate st' = target /\
    pageOf (getYear (_activeDate st')) = pageOf (getYear active) - pages /\
    In MarkForCheck effs /\
    gridYears (_years st') = pageYears (getYear target) /\
    (0 <= getYear target -> _getActiveCell st' = _getActiveCell st).
Proof.
  intros Hk H1 H2 H3 H4 H5 H6 active pages target Hyear Hstored Hscan.
  assert (Hpages : 0 < pages) by (subst pages; destruct (altKey event); lia).
  destruct (keydown_moves_by_years st steps event
              (if altKey event then - yearsPerPage * 10 else - yearsPerPage))
    as (st' & regen & Hrun & Hact & Hout);
    [switch_to Hk | | exact Hstored | exact Hscan | ].
  { fold active target. rewrite Hyear. subst pages.
    destruct (altKey event); unfold yearsPerPage; lia. }
  fold active target in Hrun, Hact, Hout.
  replace (if altKey event then - yearsPerPage * 10 else - yearsPerPage)
    with (yearsPerPage * - pages) in Hout
    by (subst pages; destruct (altKey event); unfold yearsPerPage; lia).
  rewrite page_after_pages in Hout.
  destruct Hout as [(Hsame & _) | (_ & -> & ->)]; [lia|].
  do 2 eexists. split; [exact Hrun|].
  split; [exact Hact|].
  change (_activeDate (initialized steps (assigned st target)))
    with (_activeDate (assigned st target)).
  assert (Hv : _activeDate (assigned st target) = target) by exact Hstored.
  rewrite gridYears_initialized, Hv, Hyear.
  replace (getYear active - yearsPerPage * pages)
    with (getYear active + yearsPerPage * - pages) by lia.
  split; [rewrite page_after_pages; lia|].
  split; [apply markForCheck_in_trace; left; reflexivity|].
  split; [reflexivity|].
  intros Hy. unfold _getActiveCell, activeDate.
  change (_activeDate (initialized steps (assigned st target)))
    with (_activeDate (assigned st target)).
  rewrite Hv, Hyear.
  replace (getYear active - yearsPerPage * pages)
    with (getYear active + yearsPerPage * - pages) by lia.
  apply rem_after_pages; unfold active in *; unfold yearsPerPage in *; lia.
Qed.

Lemma rem_of_first_year (year : Z) :
  Z.rem (year - Z.rem year yearsPerPage) yearsPerPage = 0.
Proof.
  unfold yearsPerPage.
  replace (year - Z.rem year 24) with ((year ÷ 24) * 24)
    by (pose proof (Z.quot_rem' year 24); lia).
  apply Z.rem_mul. lia.
Qed.

(** X14. HOME moves the active date to the first of the 24 years that
    [_init] generates for it, whatever the sign of the year, and the active
    cell is then cell 0; from a year that is not negative the grid is not
    generated again. *)
Theorem home_reaches_first_generated_year
    (st : view) (steps : nat) (event : KeyboardEvent) :
  keyCode event = HOME ->
  HOME <> LEFT_ARROW -> HOME <> RIGHT_ARROW ->
  HOME <> UP_ARROW -> HOME <> DOWN_ARROW ->
  let active := _activeDate st in
  let year := getYear active in
  let target := addCalendarYears active (Z.rem (- year) yearsPerPage) in
  getYear target = year + Z.rem (- year) yearsPerPage ->
  storedAsIs st target ->
  (forall y, scanBounded steps st y) ->
  exists st' effs,
    _handleCalendarBodyKeydown steps event st = Some (tt, st', effs) /\
    _activeDate st' = target /\
    getYear (_activeDate st') = nth 0 (pageYears year) 0 /\
    _getActiveCell st' = 0 /\
    (0 <= year -> ~ In MarkForCheck effs /\ _years st' = _years st).
Proof.
  intros Hk H1 H2 H3 H4 active year target Hyear Hstored Hscan.
  destruct (keydown_moves_by_years st steps event
              (Z.rem (- year) yearsPerPage))
    as (st' & regen & Hrun & Hact & Hout);
    [switch_to Hk | exact Hyear | exact Hstored | exact Hscan | ].
  fold active year target in Hrun, Hact, Hout.
  assert (Hland : getYear target = year - Z.rem year yearsPerPage).
  { rewrite Hyear, Z.rem_opp_l by (unfold yearsPerPage; lia). lia. }
  do 2 eexists. split; [exact Hrun|]. split; [exact Hact|].
  unfold _getActiveCell, activeDate. rewrite Hact, Hland.
  split; [rewrite pageYears_nth by lia; lia|].
  split; [apply rem_of_first_year|].
  intros Hy. rewrite markForCheck_in_trace.
  destruct Hout as [(_ & -> & ->) | (Hpage & _)].
  - split; [intros [] | reflexivity].
  - exfalso. apply Hpage. rewrite <- Hyear, Hland.
    unfold pageOf, yearsPerPage in *.
    rewrite Z.rem_mod_nonneg by lia.
    Z.to_euclidean_division_equations. lia.
Qed.

(** X15. END moves the active date to the last of the 24 years that [_init]
    generates for it, whatever the sign of the year; from a year that is not
    negative the active cell is then cell 23 and the grid is not generated
    again. *)
Theorem end_reaches_last_generated_year
    (st : view) (steps : nat) (event : KeyboardEvent) :
  keyCode event = END ->
  END <> LEFT_ARROW -> END <> RIGHT_ARROW ->
  END <> UP_ARROW -> END <> DOWN_ARROW -> END <> HOME ->
  let active := _activeDate st in
  let year := getYear active in
  let target :=
    addCalendarYears active
      (yearsPerPage - Z.rem year yearsPerPage - 1) in
  getYear target = year + (yearsPerPage - Z.rem year yearsPerPage - 1) ->
  storedAsIs st target ->
  (forall y, scanBounded steps st y) ->
  exists st' effs,
    _handleCalendarBodyKeydown steps event st = Some (tt, st', effs) /\
    _activeDate st' = target /\
    getYear (_activeDate st') = nth 23 (pageYears year) 0 /\
    (0 <= year ->
     _getActiveCell st' = 23 /\ ~ In MarkForCheck effs
     /\ _years st' = _years st).
Proof.
  intros Hk H1 H2 H3 H4 H5 active year target Hyear Hstored Hscan.
  destruct (keydown_moves_by_years st steps event
              (yearsPerPage - Z.rem year yearsPerPage - 1))
    as (st' & regen & Hrun & Hact & Hout);
    [switch_to Hk | exact Hyear | exact Hstored | exact Hscan | ].
  fold active year target in Hrun, Hact, Hout.
  do 2 eexists. split; [exact Hrun|]. split; [exact Hact|].
  unfold _getActiveCell, activeDate. rewrite Hact, Hyear.
  split; [rewrite pageYears_nth by lia; unfold yearsPerPage; lia|].
  intros Hy. rewrite markForCheck_in_trace.
  assert (Hsame : pageOf (year + (yearsPerPage - Z.rem year yearsPerPage - 1))
                  = pageOf year).
  { unfold pageOf, yearsPerPage. rewrite Z.rem_mod_nonneg by lia.
    Z.to_euclidean_division_equations. lia. }
  split.
  - unfold yearsPerPage. rewrite (Z.rem_mod_nonneg year) by lia.
    rewrite Z.rem_mod_nonneg by (Z.to_euclidean_division_equations; lia).
    Z.to_euclidean_division_equations. lia.
  - destruct Hout as [(_ & -> & ->) | (Hpage & _)]; [|contradiction].
    split; [intros [] | reflexivity].
Qed.

(** X16. DOWN_ARROW moves the active cell one row down in its column: from a
    year that is not negative and not in the last row, the cell index grows
    by 4 on the same grid; from the last row the next page is generated and
    the active cell is the one of the same column in its first row. *)
Theorem down_arrow_moves_one_row
    (st : view) (steps : nat) (event : KeyboardEvent) :
  keyCode event = DOWN_ARROW ->
  DOWN_ARROW <> LEFT_ARROW -> DOWN_ARROW <> RIGHT_ARROW ->
  DOWN_ARROW <> UP_ARROW ->
  let active := _activeDate st in
  let target := addCalendarYears active yearsPerRow in
  getYear target = getYear active + yearsPerRow ->
  storedAsIs st target ->
  0 <= getYear active ->
  (forall y, scanBounded steps st y) ->
  exists st' effs,
    _handleCalendarBodyKeydown steps event st = Some (tt, st', effs) /\
    _activeDate st' = target /\
    (_getActiveCell st < yearsPerPage - yearsPerRow ->
     _getActiveCell st' = _getActiveCell st + yearsPerRow
     /\ ~ In MarkForCheck effs /\ _years st' = _years st) /\
    (yearsPerPage - yearsPerRow <= _getActiveCell st ->
     _getActiveCell st' = _getActiveCell st + yearsPerRow - yearsPerPage
     /\ In MarkForCheck effs
     /\ pageOf (getYear (_activeDate st')) = pageOf (getYear active) + 1).
Proof.
  intros Hk H1 H2 H3 active target Hyear Hstored Hy Hscan.
  destruct (keydown_moves_by_years st steps event yearsPerRow)
    as (st' & regen & Hrun & Hact & Hout);
    [switch_to Hk | exact Hyear | exact Hstored | exact Hscan | ].
  fold active target in Hrun, Hact, Hout.
  do 2 eexists. split; [exact Hrun|]. split; [exact Hact|].
  unfold _getActiveCell, activeDate. rewrite Hact, Hyear.
  fold active. rewrite markForCheck_in_trace.
  unfold pageOf, yearsPerPage, yearsPerRow in *.
  rewrite !Z.rem_mod_nonneg by lia.
  split; intros Hcell.
  - split; [Z.to_euclidean_division_equations; lia|].
    destruct Hout as [(_ & -> & ->) | (Hpage & _)].
    + split; [intros [] | reflexivity].
    + exfalso. apply Hpage. Z.to_euclidean_division_equations. lia.
  - split; [Z.to_euclidean_division_equations; lia|].
    destruct Hout as [(Hpage & _) | (_ & -> & ->)].
    + exfalso. revert Hpage. Z.to_euclidean_division_equations. lia.
    + split; [left; reflexivity|].
      Z.to_euclidean_division_equations. lia.
Qed.

(** X17. UP_ARROW moves the active cell one row up in its column: when the
    new year is not negative, the cell index falls by 4 on the same grid
    unless the cell is in the first row; from the first row the previous
    page is generated and the active cell is the one of the same column in
    its last row. *)
Theorem up_arrow_moves_one_row
    (st : view) (steps : nat) (event : KeyboardEvent) :
  keyCode event = UP_ARROW ->
  UP_ARROW <> LEFT_ARROW -> UP_ARROW <> RIGHT_ARROW ->
  let active := _activeDate st in
  let target := addCalendarYears active (- yearsPerRow) in
  getYear target = getYear active - yearsPerRow ->
  storedAsIs st target ->
  0 <= getYear target ->
  (forall y, scanBounded steps st y) ->
  exists st' effs,
    _handleCalendarBodyKeydown steps event st = Some (tt, st', effs) /\
    _activeDate st' = target /\
    (yearsPerRow <= _getActiveCell st ->
     _getActiveCell st' = _getActiveCell st - yearsPerRow
     /\ ~ In MarkForCheck effs /\ _years st' = _years st) /\
    (_getActiveCell st < yearsPerRow ->
     _getActiveCell st' = _getActiveCell st - yearsPerRow + yearsPerPage
     /\ In MarkForCheck effs
     /\ pageOf (getYear (_activeDate st')) = pageOf (getYear active) - 1).
Proof.
  intros Hk H1 H2 active target Hyear Hstored Hy Hscan.
  destruct (keydown_moves_by_years st steps event (- yearsPerRow))
    as (st' & regen & Hrun & Hact & Hout);
    [switch_to Hk | fold active target; rewrite Hyear; lia
     | exact Hstored | exact Hscan | ].
  fold active target in Hrun, Hact, Hout.
  do 2 eexists. split; [exact Hrun|]. split; [exact Hact|].
  unfold _getActiveCell, activeDate. rewrite Hact, Hyear.
  fold active. rewrite markForCheck_in_trace.
  rewrite Hyear in Hy.
  unfold pageOf, yearsPerPage, yearsPerRow in *.
  rewrite !Z.rem_mod_nonneg by lia.
  split; intros Hcell.
  - split; [Z.to_euclidean_division_equations; lia|].
    destruct Hout as [(_ & -> & ->) | (Hpage & _)].
    + split; [intros [] | reflexivity].
    + exfalso. apply Hpage. Z.to_euclidean_division_equations. lia.
  - split; [Z.to_euclidean_division_equations; lia|].
    destruct Hout as [(Hpage & _) | (_ & -> & ->)].
    + exfalso. revert Hpage. Z.to_euclidean_division_equations. lia.
    + split; [left; reflexivity|].
      Z.to_euclidean_division_equations. lia.
Qed.

End Navigation.

(** ** The Gregorian adapter *)

Module GregorianFacts.

Import Gregorian.

Lemma nextDayIn_shift (leap : bool) (y : Z) (d : date) :
  nextDayIn leap (shift y d) = shift y (nextDayIn leap d).
Proof.
  unfold nextDayIn, shift. cbn [yr mo dy].
  destruct (dy d <? daysIn leap (mo d)); [reflexivity|].
  destruct (mo d <? 11); cbn [yr mo dy]; [reflexivity|].
  f_equal. lia.
Qed.

Lemma walk_shift (leap : bool) (y : Z) :
  forall (k : nat) (d : date),
    walk leap (shift y d) k = shift y (walk leap d k).
Proof.
  induction k as [|k IH]; intros d; [reflexivity|].
  cbn [walk]. rewrite nextDayIn_shift. apply IH.
Qed.

(** As long as the walk stays in year [y], the days the scan visits are those
    of the walk. *)
Lemma dayFrom_walk (y : Z) :
  forall (k : nat) (d : date),
    (forall j, (j < k)%nat -> yr (walk (isLeap y) d j) = y) ->
    dayFrom d k = walk (isLeap y) d k.
Proof.
  induction k as [|k IH]; intros d Hin; [reflexivity|].
  cbn [dayFrom walk].
  assert (Hd : yr d = y) by (apply (Hin O); lia).
  change (addCalendarDays d 1) with (nextDayIn (isLeap (yr d)) d).
  rewrite Hd. apply IH.
  intros j Hj. apply (Hin (S j)). lia.
Qed.

Lemma walk_stays (leap : bool) (k : nat) :
  forallb (fun j => yr (walk leap (mk 0 0 1) j) =? 0) (seq 0 k) = true ->
  forall y j, (j < k)%nat -> yr (walk leap (shift y (mk 0 0 1)) j) = y.
Proof.
  intros Hall y j Hj. rewrite walk_shift. cbn [shift yr].
  rewrite forallb_forall in Hall.
  assert (Hz : (yr (walk leap (mk 0 0 1) j) =? 0) = true).
  { apply Hall. apply in_seq. lia. }
  apply Z.eqb_eq in Hz. lia.
Qed.

(** The scan of a year leaves it with the 366th call of [addCalendarDays] at
    the latest. *)
Lemma year_ends (y : Z) : leavesYearWithin 366 y.
Proof.
  unfold leavesYearWithin, yearDay.
  change (createDate y 0 1) with (mk y 0 1).
  replace (mk y 0 1) with (shift y (mk 0 0 1))
    by (unfold shift; cbn [yr mo dy]; f_equal; lia).
  assert (Hwalk : forall k,
             forallb (fun j => yr (walk (isLeap y) (mk 0 0 1) j) =? 0)
               (seq 0 k) = true ->
             yr (dayFrom (shift y (mk 0 0 1)) k)
             = y + yr (walk (isLeap y) (mk 0 0 1) k)).
  { intros k Hall. rewrite (@dayFrom_walk y k).
    - rewrite walk_shift. reflexivity.
    - intros j Hj. apply walk_stays with (k := k); assumption. }
  destruct (isLeap y).
  - exists 366%nat. split; [lia|].
    change (getYear ?d) with (yr d).
    rewrite Hwalk by (vm_compute; reflexivity).
    vm_compute walk. cbn [yr]. lia.
  - exists 365%nat. split; [lia|].
    change (getYear ?d) with (yr d).
    rewrite Hwalk by (vm_compute; reflexivity).
    vm_compute walk. cbn [yr]. lia.
Qed.

Lemma scan_bounded (st : MatMultiYearView date) (y : Z) :
  scanBounded 367 st y.
Proof.
  intros _. exists 366%nat. split; [lia | apply year_ends].
Qed.

Lemma compare_antisym (a b : date) : compare b a = - compare a b.
Proof.
  unfold compare.
  destruct (yr a - yr b =? 0) eqn:Hy, (yr b - yr a =? 0) eqn:Hy';
    cbn [negb]; try lia.
  destruct (mo a - mo b =? 0) eqn:Hm, (mo b - mo a =? 0) eqn:Hm';
    cbn [negb]; lia.
Qed.

Lemma compare_refl (a : date) : compare a a = 0.
Proof. unfold compare. rewrite !Z.sub_diag. reflexivity. Qed.

Lemma clamping : ClampingAdapter (adapter := adapter).
Proof.
  split.
  - split; reflexivity.
  - intros d lo hi. cbn [clampDate adapter]. unfold clamp.
    destruct lo as [l|], hi as [h|];
      repeat match goal with
             | |- context [if ?c then _ else _] => destruct c
             end; auto.
  - intros d lo hi Hord. unfold withinBounds, boundsOrdered in *.
    cbn [clampDate compareDate adapter] in *. unfold clamp.
    destruct lo as [l|], hi as [h|].
    + specialize (Hord l h eq_refl eq_refl).
      pose proof (compare_antisym l h). pose proof (compare_refl l).
      pose proof (compare_refl h).
      destruct (compare d l <? 0) eqn:Hl; [|destruct (compare d h >? 0) eqn:Hh];
        split; intros m Hm; injection Hm as <-; lia.
    + destruct (compare d l <? 0) eqn:Hl; split; intros m Hm;
        try discriminate; injection Hm as <-;
        pose proof (compare_refl l); lia.
    + destruct (compare d h >? 0) eqn:Hh; split; intros m Hm;
        try discriminate; injection Hm as <-;
        pose proof (compare_refl h); lia.
    + split; intros m Hm; discriminate.
Qed.

End GregorianFacts.

(** ** The component on Gregorian dates *)

Section Runs.

Import Gregorian.

(** The page of 2023 holds the years 2016 to 2039, and with the bounds 2020
    and 2025 and the leap day filter only 2020 and 2024 are enabled. *)
Example page_of_2023 :
  option_map (fun r => map (map (fun c => (value c, enabled c)))
                           (_years (snd (fst r))))
             (_init 367 sampleView)
  = Some [[(2016, false); (2017, false); (2018, false); (2019, false)];
          [(2020, true); (2021, false); (2022, false); (2023, false)];
          [(2024, true); (2025, false); (2026, false); (2027, false)];
          [(2028, false); (2029, false); (2030, false); (2031, false)];
          [(2032, false); (2033, false); (2034, false); (2035, false)];
          [(2036, false); (2037, false); (2038, false); (2039, false)]].
Proof. vm_compute. reflexivity. Qed.

(** Committing 2023 with the active date 29 February 2024 selects
    28 February 2023. *)
Example commit_off_leap_year :
  _yearSelected 2023 (viewAt (mk 2024 1 29) None None None)
  = Some (tt, viewAt (mk 2024 1 29) None None None,
          [YearSelected (mk 2023 0 1); SelectedChange (mk 2023 1 28)]).
Proof. reflexivity. Qed.

(** PAGE_DOWN from 2023 lands on 2047 and generates the page 2040 to 2063. *)
Example page_down_from_2023 :
  option_map (fun r => (_activeDate (snd (fst r)),
                        map (@value date) (concat (_years (snd (fst r)))),
                        snd r))
             (_handleCalendarBodyKeydown 1 (key 34)
                (viewAt (mk 2023 1 3) None None None))
  = Some (mk 2047 1 3, map (fun i => 2040 + Z.of_nat i) (seq 0 24),
          [MarkForCheck; ActiveDateChange (mk 2047 1 3);
           FocusActiveCell; PreventDefault]).
Proof. vm_compute. reflexivity. Qed.

(** The 30th of February is no date: assigning it stores [today()], here
    15 January 2020, which lies within the bounds. *)
Example invalid_date_becomes_today :
  option_map (fun r => (_activeDate (snd (fst r)), snd r))
             (set_activeDate 367 (mk 2021 1 30) sampleView)
  = Some (mk 2020 0 15, []).
Proof. vm_compute. reflexivity. Qed.

(** After a bound is assigned the active date can lie outside of it: the
    setter does not clamp. *)
Example minDate_after_activeDate :
  option_map (fun r => (_activeDate (snd (fst r)), minDate (snd (fst r))))
             (set_minDate (Some (mk 2030 0 1))
                (viewAt (mk 2023 1 3) None None None))
  = Some (mk 2023 1 3, Some (mk 2030 0 1)).
Proof. reflexivity. Qed.

Lemma init_generates_page_witness :
  (forall y, In y (pageYears (getYear (_activeDate sampleView))) ->
             scanBounded 367 sampleView y) /\
  exists st',
    _init 367 sampleView = Some (tt, st', [MarkForCheck]) /\
    let activeYear := getYear (_activeDate sampleView) in
    let years := gridYears (_years st') in
    length years = 24%nat /\
    years = map (fun i => activeYear - Z.rem activeYear 24 + Z.of_nat i)
                (seq 0 24) /\
    StronglySorted Z.lt years /\
    length (_years st') = 6%nat /\
    Forall (fun row => length row = 4%nat) (_years st').
Proof.
  assert (Hscan : forall y,
             In y (pageYears (getYear (_activeDate sampleView))) ->
             scanBounded 367 sampleView y)
    by (intros y _; apply GregorianFacts.scan_bounded).
  split; [exact Hscan|].
  apply (init_generates_page sampleView 367). exact Hscan.
Defined.

Lemma generated_cell_enabled_iff_witness :
  (forall y, In y (pageYears (getYear (_activeDate sampleView))) ->
             scanBounded 367 sampleView y) /\
  exists st',
    _init 367 sampleView = Some (tt, st', [MarkForCheck]) /\
    (forall y, In y (pageYears (getYear (_activeDate sampleView))) ->
       exists c, In c (concat (_years st')) /\ value c = y) /\
    forall c, In c (concat (_years st')) ->
      In (value c) (pageYears (getYear (_activeDate sampleView))) /\
      (enabled c = true <->
       notAfterMax sampleView (value c) /\ notBeforeMin sampleView (value c)
       /\ passesFilter sampleView (value c)) /\
      ((exists m, maxDate sampleView = Some m /\ value c > getYear m) ->
       enabled c = false) /\
      ((exists m, minDate sampleView = Some m /\ value c < getYear m) ->
       enabled c = false).
Proof.
  assert (Hscan : forall y,
             In y (pageYears (getYear (_activeDate sampleView))) ->
             scanBounded 367 sampleView y)
    by (intros y _; apply GregorianFacts.scan_bounded).
  split; [exact Hscan|].
  apply (generated_cell_enabled_iff sampleView 367). exact Hscan.
Defined.

Lemma activeDate_regenerates_iff_page_changes_witness :
  (forall y,
     In y (pageYears (getYear (_activeDate (assigned openView (mk 2047 1 3)))))
     -> scanBounded 367 openView y) /\
  exists st' effs,
    set_activeDate 367 (mk 2047 1 3) openView = Some (tt, st', effs) /\
    _activeDate st'
    = clampDate (validOrToday (mk 2047 1 3)) (minDate openView)
        (maxDate openView) /\
    let oldYear := getYear (_activeDate openView) in
    let newYear := getYear (_activeDate st') in
    (In MarkForCheck effs <-> oldYear / 24 <> newYear / 24) /\
    (oldYear / 24 = newYear / 24 ->
     st' = assigned openView (mk 2047 1 3)
     /\ _years st' = _years openView /\ effs = []) /\
    (oldYear / 24 <> newYear / 24 ->
     st' = initialized 367 (assigned openView (mk 2047 1 3))
     /\ effs = [MarkForCheck]).
Proof.
  assert (Hscan : forall y,
     In y (pageYears (getYear (_activeDate (assigned openView (mk 2047 1 3)))))
     -> scanBounded 367 openView y)
    by (intros y _; apply GregorianFacts.scan_bounded).
  split; [exact Hscan|].
  apply (activeDate_regenerates_iff_page_changes openView 367 (mk 2047 1 3)).
  exact Hscan.
Defined.

Lemma unrecognized_key_is_ignored_witness :
  recognized (keyCode (key 65)) = false /\
  _handleCalendarBodyKeydown 367 (key 65) sampleView
  = Some (tt, sampleView, []).
Proof.
  split; [reflexivity|].
  apply (unrecognized_key_is_ignored sampleView 367 (key 65));
    cbn; discriminate.
Defined.

Lemma activeDateChange_iff_date_changed_witness :
  recognized (keyCode (key 39)) = true /\
  (forall y, scanBounded 367 boundedView y) /\
  exists st' effs,
    _handleCalendarBodyKeydown 367 (key 39) boundedView
    = Some (tt, st', effs) /\
    forall d,
      In (ActiveDateChange d) effs <->
      compareDate (_activeDate boundedView) (_activeDate st') <> 0
      /\ d = _activeDate st'.
Proof.
  split; [reflexivity|].
  split; [intros y; apply GregorianFacts.scan_bounded|].
  apply (activeDateChange_iff_date_changed boundedView 367 (key 39)).
  - reflexivity.
  - intros y. apply GregorianFacts.scan_bounded.
Defined.

(** C5 fails as stated: with RIGHT_ARROW on 15 June 2020 and the upper bound
    31 December 2020, the active date is clamped to the bound, the year stays
    2020, and [activeDateChange] is emitted all the same. *)
Lemma activeDateChange_without_year_change :
  ~ emitsOnYearChangeOnly 367 (key 39) boundedView.
Proof.
  intros Hclaim.
  specialize (Hclaim _ _ eq_refl). cbn in Hclaim.
  destruct Hclaim as [Hclaim _]. apply Hclaim; [|reflexivity].
  eexists. left. reflexivity.
Qed.

Lemma activeDate_assignment_valid_and_clamped_witness :
  ClampingAdapter (adapter := adapter) /\
  boundsValid sampleView /\
  (forall y,
     In y (pageYears
             (getYear (_activeDate (assigned sampleView (mk 2021 1 30)))))
     -> scanBounded 367 sampleView y) /\
  exists st' effs,
    set_activeDate 367 (mk 2021 1 30) sampleView = Some (tt, st', effs) /\
    _activeDate st'
    = clampDate (validOrToday (mk 2021 1 30)) (minDate sampleView)
        (maxDate sampleView) /\
    (deserialize (Some (mk 2021 1 30)) = None ->
     validOrToday (mk 2021 1 30) = today) /\
    (forall d, deserialize (Some (mk 2021 1 30)) = Some d ->
               isDateInstance d && isValid d = false ->
               validOrToday (mk 2021 1 30) = today) /\
    (forall d, deserialize (Some (mk 2021 1 30)) = Some d ->
               isDateInstance d && isValid d = true ->
               validOrToday (mk 2021 1 30) = d) /\
    minDate st' = minDate sampleView /\ maxDate st' = maxDate sampleView /\
    validDate (_activeDate st') /\
    (boundsOrdered (minDate sampleView) (maxDate sampleView) ->
     withinBounds (_activeDate st') (minDate st') (maxDate st')).
Proof.
  assert (Hb : boundsValid sampleView).
  { split; intros m Hm; injection Hm as <-; split; reflexivity. }
  split; [exact GregorianFacts.clamping|].
  split; [exact Hb|].
  split; [intros y _; apply GregorianFacts.scan_bounded|].
  apply (activeDate_assignment_valid_and_clamped sampleView 367 (mk 2021 1 30)).
  - exact GregorianFacts.clamping.
  - exact Hb.
  - intros y _. apply GregorianFacts.scan_bounded.
Defined.

(** C7 fails as stated: with [minDate] in 2020 and [maxDate] in 2010, the
    assignment of 15 June 2015 stores [minDate], which is after [maxDate]. *)
Lemma inverted_bounds_not_within :
  ~ storesWithinBounds 367 (mk 2015 5 15) invertedView.
Proof.
  intros Hclaim.
  specialize (Hclaim _ _ eq_refl). cbn in Hclaim.
  destruct Hclaim as [_ [_ Hhi]].
  specialize (Hhi _ eq_refl). vm_compute in Hhi. apply Hhi. reflexivity.
Qed.

(** C6, where the code departs from it. HOME on a date of the year -1, with
    no bounds, moves the active date to the year 0, and END to the year 23;
    the page of the year -1 runs from -24 to -1, so both keys leave it. *)
Theorem home_end_leave_page_of_negative_year :
  exists st1 st2 effs1 effs2,
    _handleCalendarBodyKeydown 367 (key 36) negativeView
    = Some (tt, st1, effs1) /\
    _handleCalendarBodyKeydown 367 (key 35) negativeView
    = Some (tt, st2, effs2) /\
    getYear (_activeDate st1) = 0 /\
    getYear (_activeDate st2) = 23 /\
    firstYearOfPage (getYear (_activeDate negativeView)) = -24 /\
    lastYearOfPage (getYear (_activeDate negativeView)) = -1 /\
    pageOf (getYear (_activeDate st1))
    <> pageOf (getYear (_activeDate negativeView)) /\
    pageOf (getYear (_activeDate st2))
    <> pageOf (getYear (_activeDate negativeView)).
Proof.
  do 4 eexists.
  split; [vm_compute; reflexivity|].
  split; [vm_compute; reflexivity|].
  repeat split; vm_compute; discriminate.
Qed.

(** *** Further runs *)

Lemma scan_bounded_page (st : MatMultiYearView date) :
  forall y, In y (pageYears (getYear (_activeDate st))) ->
            scanBounded 367 st y.
Proof. intros y _. apply GregorianFacts.scan_bounded. Qed.

Lemma init_sets_derived_years_only_witness :
  (forall y, In y (pageYears (getYear (_activeDate sampleView))) ->
             scanBounded 367 sampleView y) /\
  exists st',
    _init 367 sampleView = Some (tt, st', [MarkForCheck]) /\
    _todayYear st' = Some (getYear today) /\
    (forall d, _selected sampleView = Some d ->
               _selectedYear st' = Some (getYear d)) /\
    (_selected sampleView = None -> _selectedYear st' = None) /\
    _activeDate st' = _activeDate sampleView /\
    keepsInputs sampleView st'.
Proof.
  split; [apply scan_bounded_page|].
  apply (init_sets_derived_years_only sampleView 367).
  apply scan_bounded_page.
Defined.

Lemma generated_cell_label_and_range_witness :
  (forall y, In y (pageYears (getYear (_activeDate sampleView))) ->
             scanBounded 367 sampleView y) /\
  exists st',
    _init 367 sampleView = Some (tt, st', [MarkForCheck]) /\
    forall c, In c (concat (_years st')) ->
      displayValue c = getYearName (createDate (value c) 0 1) /\
      ariaLabel c = displayValue c /\
      range_start (range c) = createDate (value c) 0 1 /\
      range_end (range c) = createDate (value c) 11 31.
Proof.
  split; [apply scan_bounded_page|].
  apply (generated_cell_label_and_range sampleView 367).
  apply scan_bounded_page.
Defined.

Lemma active_cell_holds_active_year_witness :
  0 <= getYear (_activeDate sampleView) /\
  exists st',
    _init 367 sampleView = Some (tt, st', [MarkForCheck]) /\
    0 <= _getActiveCell st' < yearsPerPage /\
    nth (Z.to_nat (_getActiveCell st')) (gridYears (_years st')) 0
    = getYear (activeDate st').
Proof.
  split; [cbn; lia|].
  apply (active_cell_holds_active_year sampleView 367).
  - cbn. lia.
  - apply scan_bounded_page.
Defined.

Lemma negative_active_year_not_in_grid_witness :
  getYear (_activeDate negativeView) < 0 /\
  Z.rem (getYear (_activeDate negativeView)) yearsPerPage <> 0 /\
  exists st',
    _init 367 negativeView = Some (tt, st', [MarkForCheck]) /\
    _getActiveCell st' < 0 /\
    ~ In (getYear (activeDate st')) (gridYears (_years st')) /\
    forall y, In y (gridYears (_years st')) -> getYear (activeDate st') < y.
Proof.
  split; [cbn; lia|]. split; [cbn; discriminate|].
  apply (negative_active_year_not_in_grid negativeView 367).
  - cbn. lia.
  - cbn. discriminate.
  - apply scan_bounded_page.
Defined.

Lemma year_enabled_at_first_passing_day_witness :
  isDayOfYear 2020 59 /\
  onLeapDay (yearDay 2020 59) = true /\
  _shouldEnableYear 60 sampleView (Some 2020) = Some true.
Proof.
  assert (Hday : isDayOfYear 2020 59)
    by (apply isDayOfYear_check; vm_compute; reflexivity).
  split; [exact Hday|]. split; [vm_compute; reflexivity|].
  apply (year_enabled_at_first_passing_day sampleView onLeapDay 2020 59 60).
  - intros m Hm. injection Hm as <-. cbn. lia.
  - intros m Hm. injection Hm as <-. cbn. lia.
  - reflexivity.
  - exact Hday.
  - vm_compute. reflexivity.
  - lia.
Defined.

Lemma generatedView_current : gridCurrent 367 generatedView.
Proof.
  exists (initialized 367 generatedView), [MarkForCheck].
  split; [apply init_runs; apply scan_bounded_page | reflexivity].
Qed.

Lemma assignment_keeps_grid_current_witness :
  gridCurrent 367 generatedView /\
  exists st' effs,
    set_activeDate 367 (mk 2030 5 1) generatedView = Some (tt, st', effs) /\
    gridCurrent 367 st'.
Proof.
  split; [exact generatedView_current|].
  apply (assignment_keeps_grid_current generatedView 367 (mk 2030 5 1)).
  - exact generatedView_current.
  - cbn. lia.
  - cbn. lia.
  - intros y. apply GregorianFacts.scan_bounded.
Defined.

Lemma recognized_key_focuses_and_prevents_default_witness :
  recognized (keyCode (key 38)) = true /\
  exists st' before,
    _handleCalendarBodyKeydown 367 (key 38) sampleView
    = Some (tt, st', before ++ [FocusActiveCell; PreventDefault]) /\
    ~ In FocusActiveCell before /\ ~ In PreventDefault before.
Proof.
  split; [reflexivity|].
  apply (recognized_key_focuses_and_prevents_default sampleView 367 (key 38)).
  - reflexivity.
  - intros y. apply GregorianFacts.scan_bounded.
Defined.

Lemma keydown_keeps_inputs_witness :
  (forall y, scanBounded 367 sampleView y) /\
  exists st' effs,
    _handleCalendarBodyKeydown 367 (key 34) sampleView
    = Some (tt, st', effs) /\
    keepsInputs sampleView st' /\
    (boundsValid sampleView -> boundsValid st').
Proof.
  split; [intros y; apply GregorianFacts.scan_bounded|].
  apply (keydown_keeps_inputs sampleView 367 (key 34)).
  intros y. apply GregorianFacts.scan_bounded.
Defined.

Lemma commit_key_selects_active_year_witness :
  compareDate (_activeDate sampleView) (_activeDate sampleView) = 0 /\
  _handleCalendarBodyKeydown 0 (key 32) sampleView =
  Some (tt, sampleView,
        [YearSelected (mk 2023 0 1); SelectedChange (mk 2023 1 3);
         FocusActiveCell; PreventDefault]).
Proof.
  split; [reflexivity|].
  refine (commit_key_selects_active_year sampleView 0 (key 32)
            (or_intror eq_refl) _ _ _ _ _ _ _ _ eq_refl);
    cbn; discriminate.
Defined.

Lemma rtl_swaps_horizontal_arrows_witness :
  (exists st' effs,
     _handleCalendarBodyKeydown 367 (key 37) (with_dir openView (Some rtl))
     = Some (tt, with_dir st' (Some rtl), effs) /\
     _handleCalendarBodyKeydown 367 (key 39) (with_dir openView (Some ltr))
     = Some (tt, with_dir st' (Some ltr), effs) /\
     _handleCalendarBodyKeydown 367 (key 39) (with_dir openView None)
     = Some (tt, with_dir st' None, effs)) /\
  (exists st' effs,
     _handleCalendarBodyKeydown 367 (key 39) (with_dir openView (Some rtl))
     = Some (tt, with_dir st' (Some rtl), effs) /\
     _handleCalendarBodyKeydown 367 (key 37) (with_dir openView (Some ltr))
     = Some (tt, with_dir st' (Some ltr), effs) /\
     _handleCalendarBodyKeydown 367 (key 37) (with_dir openView None)
     = Some (tt, with_dir st' None, effs)).
Proof.
  apply (rtl_swaps_horizontal_arrows openView 367 (key 37) (key 39)).
  - reflexivity.
  - reflexivity.
  - cbn. discriminate.
  - intros y. apply GregorianFacts.scan_bounded.
Defined.

Lemma page_down_turns_pages_witness :
  let target := addCalendarYears (_activeDate openView) yearsPerPage in
  getYear target = getYear (_activeDate openView) + yearsPerPage * 1 /\
  storedAsIs openView target /\
  exists st' effs,
    _handleCalendarBodyKeydown 367 (key 34) openView = Some (tt, st', effs) /\
    _activeDate st' = target /\
    pageOf (getYear (_activeDate st'))
    = pageOf (getYear (_activeDate openView)) + 1 /\
    In MarkForCheck effs /\
    gridYears (_years st') = pageYears (getYear target) /\
    (0 <= getYear (_activeDate openView) ->
     _getActiveCell st' = _getActiveCell openView).
Proof.
  split; [reflexivity|]. split; [reflexivity|].
  refine (page_down_turns_pages openView 367 (key 34)
            eq_refl _ _ _ _ _ _ _ eq_refl eq_refl _);
    try (cbn; discriminate).
  intros y. apply GregorianFacts.scan_bounded.
Defined.

Lemma page_up_turns_pages_witness :
  let target := addCalendarYears (_activeDate openView) (- yearsPerPage) in
  getYear target = getYear (_activeDate openView) - yearsPerPage * 1 /\
  storedAsIs openView target /\
  exists st' effs,
    _handleCalendarBodyKeydown 367 (key 33) openView = Some (tt, st', effs) /\
    _activeDate st' = target /\
    pageOf (getYear (_activeDate st'))
    = pageOf (getYear (_activeDate openView)) - 1 /\
    In MarkForCheck effs /\
    gridYears (_years st') = pageYears (getYear target) /\
    (0 <= getYear target -> _getActiveCell st' = _getActiveCell openView).
Proof.
  split; [reflexivity|]. split; [reflexivity|].
  refine (page_up_turns_pages openView 367 (key 33)
            eq_refl _ _ _ _ _ _ eq_refl eq_refl _);
    try (cbn; discriminate).
  intros y. apply GregorianFacts.scan_bounded.
Defined.

Lemma home_reaches_first_generated_year_witness :
  let year := getYear (_activeDate negativeView) in
  let target :=
    addCalendarYears (_activeDate negativeView)
      (Z.rem (- year) yearsPerPage) in
  getYear target = year + Z.rem (- year) yearsPerPage /\
  storedAsIs negativeView target /\
  exists st' effs,
    _handleCalendarBodyKeydown 367 (key 36) negativeView
    = Some (tt, st', effs) /\
    _activeDate st' = target /\
    getYear (_activeDate st') = nth 0 (pageYears year) 0 /\
    _getActiveCell st' = 0 /\
    (0 <= year -> ~ In MarkForCheck effs /\ _years st' = _years negativeView).
Proof.
  split; [reflexivity|]. split; [reflexivity|].
  refine (home_reaches_first_generated_year negativeView 367 (key 36)
            eq_refl _ _ _ _ eq_refl eq_refl _);
    try (cbn; discriminate).
  intros y. apply GregorianFacts.scan_bounded.
Defined.

Lemma end_reaches_last_generated_year_witness :
  let year := getYear (_activeDate openView) in
  let target :=
    addCalendarYears (_activeDate openView)
      (yearsPerPage - Z.rem year yearsPerPage - 1) in
  getYear target = year + (yearsPerPage - Z.rem year yearsPerPage - 1) /\
  storedAsIs openView target /\
  exists st' effs,
    _handleCalendarBodyKeydown 367 (key 35) openView = Some (tt, st', effs) /\
    _activeDate st' = target /\
    getYear (_activeDate st') = nth 23 (pageYears year) 0 /\
    (0 <= year ->
     _getActiveCell st' = 23 /\ ~ In MarkForCheck effs
     /\ _years st' = _years openView).
Proof.
  split; [reflexivity|]. split; [reflexivity|].
  refine (end_reaches_last_generated_year openView 367 (key 35)
            eq_refl _ _ _ _ _ eq_refl eq_refl _);
    try (cbn; discriminate).
  intros y. apply GregorianFacts.scan_bounded.
Defined.

Lemma down_arrow_moves_one_row_witness :
  let target := addCalendarYears (_activeDate openView) yearsPerRow in
  getYear target = getYear (_activeDate openView) + yearsPerRow /\
  storedAsIs openView target /\
  0 <= getYear (_activeDate openView) /\
  exists st' effs,
    _handleCalendarBodyKeydown 367 (key 40) openView = Some (tt, st', effs) /\
    _activeDate st' = target /\
    (_getActiveCell openView < yearsPerPage - yearsPerRow ->
     _getActiveCell st' = _getActiveCell openView + yearsPerRow
     /\ ~ In MarkForCheck effs /\ _years st' = _years openView) /\
    (yearsPerPage - yearsPerRow <= _getActiveCell openView ->
     _getActiveCell st' = _getActiveCell openView + yearsPerRow - yearsPerPage
     /\ In MarkForCheck effs
     /\ pageOf (getYear (_activeDate st'))
        = pageOf (getYear (_activeDate openView)) + 1).
Proof.
  split; [reflexivity|]. split; [reflexivity|]. split; [cbn; lia|].
  refine (down_arrow_moves_one_row openView 367 (key 40)
            eq_refl _ _ _ eq_refl eq_refl _ _);
    try (cbn; discriminate).
  intros y. apply GregorianFacts.scan_bounded.
Defined.

Lemma up_arrow_moves_one_row_witness :
  let target := addCalendarYears (_activeDate openView) (- yearsPerRow) in
  getYear target = getYear (_activeDate openView) - yearsPerRow /\
  storedAsIs openView target /\
  0 <= getYear target /\
  exists st' effs,
    _handleCalendarBodyKeydown 367 (key 38) openView = Some (tt, st', effs) /\
    _activeDate st' = target /\
    (yearsPerRow <= _getActiveCell openView ->
     _getActiveCell st' = _getActiveCell openView - yearsPerRow
     /\ ~ In MarkForCheck effs /\ _years st' = _years openView) /\
    (_getActiveCell openView < yearsPerRow ->
     _getActiveCell st' = _getActiveCell openView - yearsPerRow + yearsPerPage
     /\ In MarkForCheck effs
     /\ pageOf (getYear (_activeDate st'))
        = pageOf (getYear (_activeDate openView)) - 1).
Proof.
  split; [reflexivity|]. split; [reflexivity|]. split; [cbn; lia|].
  refine (up_arrow_moves_one_row openView 367 (key 38)
            eq_refl _ _ eq_refl eq_refl _ _);
    try (cbn; discriminate).
  intros y. apply GregorianFacts.scan_bounded.
Defined.

End Runs.
